(** * Wrigley modem power-sequencing controller

    A shallow embedding of [drivers/misc/radio_ctrl/wrigley_ctrl.c] and the
    properties of its power state machine.

    The driver mutates one [struct wrigley_info] and talks to four GPIO
    lines.  Every driver function is embedded as an action of a small
    state-and-output monad: it takes the machine (driver structure, line
    levels, the modem's RESET-SENSE behaviour), and gives a return value,
    the machine afterwards and the list of hardware and kernel calls it made,
    in program order.

    What is left out: the kernel log ([pr_info], [pr_debug], [pr_err]), the
    GPIO names built with [snprintf], and preemption.  Each action runs to
    completion; the interleaving of the interrupt handler with a sleeping
    power transition is outside this model. *)

From Stdlib Require Import ZArith NArith List String Ascii Bool Lia.
Import ListNotations.

Local Open Scope string_scope.
Local Open Scope Z_scope.
Local Open Scope list_scope.

(** ** Data model *)

(** [enum wrigley_status].  The enumeration has no negative enumerator, so the
    field is an unsigned integer; it is kept numeric because
    [wrigley_status_show] compares it with the last enumerator. *)
Definition WRIGLEY_STATUS_NORMAL : N := 0.
Definition WRIGLEY_STATUS_FLASH : N := 1.
Definition WRIGLEY_STATUS_RESETTING : N := 2.
Definition WRIGLEY_STATUS_OFF : N := 3.
Definition WRIGLEY_STATUS_UNDEFINED : N := 4.

(** The four lines of [struct wrigley_info].  [wrigley_probe] obtains each
    with [gpio_request], which refuses a line that is already taken, so after
    a successful probe the four are distinct lines. *)
Inductive gpio : Type :=
| disable_gpio
| power_gpio
| flash_gpio
| reset_gpio.

(** The fields of [struct wrigley_info] that the driver reads and writes after
    setup.  [rdev_dev] is [info->rdev.dev != NULL]: the radio class device
    exists. *)
Record wrigley_info : Type := mk_info {
  boot_flash : bool;
  tcmd_suspended : bool;
  status : N;
  rdev_dev : bool
}.

(** The machine: the driver structure, the level of the three lines the driver
    drives, and the modem.  The modem owns RESET-SENSE: [reset_in k] is the
    value the [k]-th [gpio_get_value(reset_gpio)] returns, and [sampled]
    counts the reads made so far.  Nothing is assumed about [reset_in]. *)
Record machine : Type := mk_machine {
  info : wrigley_info;
  disable_lvl : bool;
  power_lvl : bool;
  flash_lvl : bool;
  reset_in : nat -> Z;
  sampled : nat
}.

(** [enum irqreturn] *)
Inductive irqreturn : Type :=
| IRQ_NONE
| IRQ_HANDLED
| IRQ_WAKE_THREAD.

(** Return values of a notifier callback. *)
Inductive notify : Type :=
| NOTIFY_DONE
| NOTIFY_OK
| NOTIFY_STOP
| NOTIFY_BAD.

(** What an action does to the world outside [struct wrigley_info]. *)
Inductive event : Type :=
| EvMutexLock
| EvMutexUnlock
| EvGpioOut (l : gpio) (v : bool)
| EvGpioIn (l : gpio)
| EvGpioGet (l : gpio) (v : Z)
| EvMsleep (ms : Z)
| EvUevent (envp : list string)
| EvGpioRequest (l : gpio) (err : Z)
| EvGpioExport (l : gpio)
| EvGpioFree (l : gpio)
| EvRequestIrq (err : Z)
| EvFreeIrq
| EvRegisterReboot
| EvRadioRegister (err : Z)
| EvKfree.

(** ** The monad of driver actions *)

Definition M (A : Type) : Type := machine -> (A * machine) * list event.

Definition ret {A : Type} (a : A) : M A := fun m => ((a, m), []).

Definition bind {A B : Type} (c : M A) (k : A -> M B) : M B :=
  fun m =>
    let '((a, m1), e1) := c m in
    let '((b, m2), e2) := k a m1 in
    ((b, m2), e1 ++ e2).

Declare Scope drv_scope.
Delimit Scope drv_scope with drv.
Notation "x <- c1 ;; c2" := (bind c1 (fun x => c2))
  (at level 61, c1 at next level, right associativity) : drv_scope.
Notation "c1 ;; c2" := (bind c1 (fun _ => c2))
  (at level 61, right associativity) : drv_scope.
Local Open Scope drv_scope.

Definition result {A : Type} (r : (A * machine) * list event) : A := fst (fst r).
Definition final {A : Type} (r : (A * machine) * list event) : machine := snd (fst r).
Definition events {A : Type} (r : (A * machine) * list event) : list event := snd r.

Definition emit (e : event) : M unit := fun m => ((tt, m), [e]).

Definition get_info : M wrigley_info := fun m => ((info m, m), []).

Definition set_info (i : wrigley_info) : M unit :=
  fun m => ((tt, mk_machine i (disable_lvl m) (power_lvl m) (flash_lvl m)
                   (reset_in m) (sampled m)), []).

(** [info->status = s] *)
Definition set_status (s : N) : M unit :=
  i <- get_info ;;
  set_info (mk_info (boot_flash i) (tcmd_suspended i) s (rdev_dev i)).

(** [info->boot_flash = b] *)
Definition set_boot_flash (b : bool) : M unit :=
  i <- get_info ;;
  set_info (mk_info b (tcmd_suspended i) (status i) (rdev_dev i)).

(** [info->tcmd_suspended = b] *)
Definition set_tcmd_suspended (b : bool) : M unit :=
  i <- get_info ;;
  set_info (mk_info (boot_flash i) b (status i) (rdev_dev i)).

(** [info->rdev.dev = ...], written by [radio_dev_register]. *)
Definition set_rdev_dev (b : bool) : M unit :=
  i <- get_info ;;
  set_info (mk_info (boot_flash i) (tcmd_suspended i) (status i) b).

(** ** Kernel primitives the driver calls *)

Definition mutex_lock : M unit := emit EvMutexLock.
Definition mutex_unlock : M unit := emit EvMutexUnlock.
Definition msleep (ms : Z) : M unit := emit (EvMsleep ms).

(** [gpio_direction_output(l, v)]: the line is driven to [v].  The driver never
    drives RESET-SENSE; for that line the call is only recorded. *)
Definition gpio_direction_output (l : gpio) (v : bool) : M unit :=
  fun m =>
    let m' :=
      match l with
      | disable_gpio =>
          mk_machine (info m) v (power_lvl m) (flash_lvl m) (reset_in m) (sampled m)
      | power_gpio =>
          mk_machine (info m) (disable_lvl m) v (flash_lvl m) (reset_in m) (sampled m)
      | flash_gpio =>
          mk_machine (info m) (disable_lvl m) (power_lvl m) v (reset_in m) (sampled m)
      | reset_gpio => m
      end in
    ((tt, m'), [EvGpioOut l v]).

(** [gpio_get_value(l)]: the level of a driven line, or the modem's next
    RESET-SENSE sample. *)
Definition gpio_get_value (l : gpio) : M Z :=
  fun m =>
    match l with
    | disable_gpio => let v := Z.b2z (disable_lvl m) in ((v, m), [EvGpioGet l v])
    | power_gpio => let v := Z.b2z (power_lvl m) in ((v, m), [EvGpioGet l v])
    | flash_gpio => let v := Z.b2z (flash_lvl m) in ((v, m), [EvGpioGet l v])
    | reset_gpio =>
        let v := reset_in m (sampled m) in
        ((v, mk_machine (info m) (disable_lvl m) (power_lvl m) (flash_lvl m)
               (reset_in m) (S (sampled m))), [EvGpioGet l v])
    end.

(** [kobject_uevent_env(&info->rdev.dev->kobj, KOBJ_CHANGE, envp)];
    [kobject_uevent] is the same call with no extra environment. *)
Definition kobject_uevent_env (envp : list string) : M unit := emit (EvUevent envp).
Definition kobject_uevent : M unit := kobject_uevent_env [].

(** Modelled from the spec: [strcmp] lives in the kernel's string library, which
    is not among the sources here; the spec asks for an exact match of the
    command text.  This is C's [strcmp] on NUL-terminated strings: a [string]
    stands for the bytes of a buffer followed by the terminator, so a zero
    byte inside it ends the C string early. *)
Fixpoint strcmp (cs ct : string) : Z :=
  match cs, ct with
  | EmptyString, EmptyString => 0
  | EmptyString, String c2 _ => if Ascii.eqb c2 zero then 0 else -1
  | String c1 _, EmptyString => if Ascii.eqb c1 zero then 0 else 1
  | String c1 cs', String c2 ct' =>
      if negb (Ascii.eqb c1 c2)
      then (if (nat_of_ascii c1 <? nat_of_ascii c2)%nat then -1 else 1)
      else if Ascii.eqb c1 zero then 0 else strcmp cs' ct'
  end.

(** The C string held in a buffer: the bytes before the first NUL. *)
Fixpoint c_str (s : string) : string :=
  match s with
  | EmptyString => EmptyString
  | String c s' => if Ascii.eqb c zero then EmptyString else String c (c_str s')
  end.

(** No zero byte in [s]: the buffer holds [s] as its C string. *)
Fixpoint nul_free (s : string) : bool :=
  match s with
  | EmptyString => true
  | String c s' => negb (Ascii.eqb c zero) && nul_free s'
  end.

(** [snprintf(buff, size, "%s\n", s)]: what ends up in [buff] (before the
    terminator) and the return value, the length of the untruncated text. *)
Definition snprintf_line (size : nat) (s : string) : string * Z :=
  let text := String.append s (String "010"%char EmptyString) in
  (substring 0 (size - 1) text, Z.of_nat (String.length text)).

(** Modelled from the spec: the [RADIO_STATUS_*_NAME] macros come from
    [linux/radio_ctrl/radio_class.h], which is not among the sources; the spec
    fixes the five tokens. *)
Definition RADIO_STATUS_NORMAL_NAME : string := "normal".
Definition RADIO_STATUS_FLASH_NAME : string := "flash".
Definition RADIO_STATUS_RESETTING_NAME : string := "resetting".
Definition RADIO_STATUS_OFF_NAME : string := "off".
Definition RADIO_STATUS_UNDEFINED_NAME : string := "undefined".

(** [wrigley_status_str[]], indexed by the enumeration. *)
Definition wrigley_status_str : list string :=
  [ RADIO_STATUS_NORMAL_NAME;
    RADIO_STATUS_FLASH_NAME;
    RADIO_STATUS_RESETTING_NAME;
    RADIO_STATUS_OFF_NAME;
    RADIO_STATUS_UNDEFINED_NAME ].

(** ** The driver *)

Section Driver.

(** Constants of kernel headers that are not among the sources.  Nothing is
    assumed about them here; a theorem that needs a fact about one states it. *)
Variable EINVAL : Z.
Variable ENOMEM : Z.
Variable RADIO_STATUS_MAX_LENGTH : nat.

(** [wrigley_status_show]: the text put in [buff] and the return value. *)
Definition wrigley_status_show : M (string * Z) :=
  i <- get_info ;;
  (if (WRIGLEY_STATUS_UNDEFINED <? status i)%N
   then set_status WRIGLEY_STATUS_UNDEFINED
   else ret tt) ;;
  i <- get_info ;;
  ret (snprintf_line RADIO_STATUS_MAX_LENGTH
         (nth (N.to_nat (status i)) wrigley_status_str "")).

(** The loop of [wrigley_do_powerdown], with [n] iterations left:
    [for (i = 0; i < 10; i++) { value = gpio_get_value(reset);
       if (!value) break; msleep(400); }] *)
Fixpoint powerdown_poll (n : nat) : M unit :=
  match n with
  | O => ret tt
  | S n' =>
      value <- gpio_get_value reset_gpio ;;
      if value =? 0 then ret tt
      else (msleep 400 ;; powerdown_poll n')
  end.

Definition wrigley_do_powerdown : M Z :=
  mutex_lock ;;
  i <- get_info ;;
  if (status i =? WRIGLEY_STATUS_OFF)%N then
    (mutex_unlock ;; ret 0)
  else
    (gpio_direction_output disable_gpio false ;;
     powerdown_poll 10 ;;
     gpio_direction_output power_gpio false ;;
     set_status WRIGLEY_STATUS_OFF ;;
     mutex_unlock ;;
     ret 0).

(** The loop of [wrigley_do_powerup], with [n] iterations left and the
    current value of [err]:
    [for (i = 0; i < 10; i++) { value = gpio_get_value(reset);
       if (value) { err = 0; break; } msleep(400); }] *)
Fixpoint powerup_poll (n : nat) (err : Z) : M Z :=
  match n with
  | O => ret err
  | S n' =>
      value <- gpio_get_value reset_gpio ;;
      if negb (value =? 0) then ret 0
      else (msleep 400 ;; powerup_poll n' err)
  end.

Definition wrigley_do_powerup : M Z :=
  let err := -1 in
  mutex_lock ;;
  i <- get_info ;;
  if ((status i =? WRIGLEY_STATUS_FLASH) || (status i =? WRIGLEY_STATUS_NORMAL))%N then
    (mutex_unlock ;; ret err)
  else
    ((if boot_flash i
      then gpio_direction_output flash_gpio true
      else gpio_direction_output flash_gpio false) ;;
     gpio_direction_output disable_gpio true ;;
     gpio_direction_output power_gpio true ;;
     err <- powerup_poll 10 err ;;
     (if err =? 0 then
        (i <- get_info ;;
         if boot_flash i
         then set_status WRIGLEY_STATUS_FLASH
         else set_status WRIGLEY_STATUS_NORMAL)
      else set_status WRIGLEY_STATUS_UNDEFINED) ;;
     mutex_unlock ;;
     ret err).

Definition wrigley_set_flash_mode (enable : bool) : M Z :=
  set_boot_flash enable ;;
  ret 0.

Definition wrigley_command (cmd : string) : M Z :=
  if strcmp cmd "shutdown" =? 0 then wrigley_do_powerdown
  else if strcmp cmd "powerup" =? 0 then wrigley_do_powerup
  else if strcmp cmd "bootmode_normal" =? 0 then wrigley_set_flash_mode false
  else if strcmp cmd "bootmode_flash" =? 0 then wrigley_set_flash_mode true
  else if strcmp cmd "suspend" =? 0 then
    (set_tcmd_suspended true ;; ret 0)
  else ret (- EINVAL).

(** The threaded half of the reset interrupt. *)
Definition wrigley_reset_fn : M irqreturn :=
  gpio_direction_output power_gpio false ;;
  i <- get_info ;;
  (if rdev_dev i then kobject_uevent else ret tt) ;;
  ret IRQ_HANDLED.

(** The hard half of the reset interrupt. *)
Definition wrigley_reset_isr : M irqreturn :=
  i <- get_info ;;
  if tcmd_suspended i then ret IRQ_HANDLED
  else (set_status WRIGLEY_STATUS_RESETTING ;; ret IRQ_WAKE_THREAD).

(** Modelled from the spec: the interrupt core behind [request_threaded_irq] is
    not among the sources.  One falling edge of RESET-SENSE runs the hard
    handler, and the threaded handler afterwards when, and only when, the hard
    handler asked for it with [IRQ_WAKE_THREAD]. *)
Definition reset_irq : M irqreturn :=
  r <- wrigley_reset_isr ;;
  match r with
  | IRQ_WAKE_THREAD => wrigley_reset_fn
  | _ => ret r
  end.

Definition wrigley_shutdown : M unit :=
  wrigley_do_powerdown ;;
  ret tt.

Definition wrigley_process_reboot (event : Z) : M notify :=
  i <- get_info ;;
  (if rdev_dev i then kobject_uevent_env ["WRIGLEY_SHUTDOWN=1"] else ret tt) ;;
  wrigley_do_powerdown ;;
  ret NOTIFY_DONE.

(** *** Device attach *)

(** What the kernel answers to the requests [wrigley_probe] makes. *)
Record probe_env : Type := mk_probe_env {
  kzalloc_ok : bool;
  request_disable : Z;
  request_reset : Z;
  request_irq : Z;
  request_flash : Z;
  request_power : Z;
  register_rdev : Z
}.

Definition gpio_request (l : gpio) (err : Z) : M Z :=
  emit (EvGpioRequest l err) ;; ret err.

(** Modelled from the spec: [radio_dev_register] is in the radio class, not
    among the sources; when it succeeds the structure holds the handle of its
    registration, which is what the notification paths test. *)
Definition radio_dev_register (err : Z) : M Z :=
  emit (EvRadioRegister err) ;;
  (if err =? 0 then set_rdev_dev true else ret tt) ;;
  ret err.

(** The labels at the end of [wrigley_probe]; each falls through to the next. *)
Definition err_disable (err : Z) : M Z :=
  emit EvKfree ;; ret err.
Definition err_reset (err : Z) : M Z :=
  emit (EvGpioFree disable_gpio) ;; err_disable err.
Definition err_flash (err : Z) : M Z :=
  emit EvFreeIrq ;; emit (EvGpioFree reset_gpio) ;; err_reset err.
Definition err_power (err : Z) : M Z :=
  emit (EvGpioFree flash_gpio) ;; err_flash err.
Definition err_dev_register (err : Z) : M Z :=
  emit (EvGpioFree power_gpio) ;; err_power err.

Definition wrigley_probe (pe : probe_env) : M Z :=
  if negb (kzalloc_ok pe) then ret (- ENOMEM)
  else
    (set_info (mk_info false false 0 false) ;;
     err <- gpio_request disable_gpio (request_disable pe) ;;
     if negb (err =? 0) then err_disable err
     else
       (emit (EvGpioExport disable_gpio) ;;
        err <- gpio_request reset_gpio (request_reset pe) ;;
        if negb (err =? 0) then err_reset err
        else
          (emit (EvGpioIn reset_gpio) ;;
           err <- (emit (EvRequestIrq (request_irq pe)) ;; ret (request_irq pe)) ;;
           if negb (err =? 0) then
             (emit (EvGpioFree reset_gpio) ;; err_reset err)
           else
             (emit (EvGpioExport reset_gpio) ;;
              err <- gpio_request flash_gpio (request_flash pe) ;;
              if negb (err =? 0) then err_flash err
              else
                (emit (EvGpioExport flash_gpio) ;;
                 err <- gpio_request power_gpio (request_power pe) ;;
                 if negb (err =? 0) then err_power err
                 else
                   (emit (EvGpioExport power_gpio) ;;
                    emit EvRegisterReboot ;;
                    v <- gpio_get_value flash_gpio ;;
                    set_boot_flash (negb (v =? 0)) ;;
                    v <- gpio_get_value reset_gpio ;;
                    (if negb (v =? 0) then
                       (i <- get_info ;;
                        if boot_flash i
                        then set_status WRIGLEY_STATUS_FLASH
                        else set_status WRIGLEY_STATUS_NORMAL)
                     else set_status WRIGLEY_STATUS_OFF) ;;
                    set_tcmd_suspended false ;;
                    err <- radio_dev_register (register_rdev pe) ;;
                    if negb (err =? 0) then err_dev_register err
                    else ret 0)))))).

(** ** The controller as a transition system *)

(** One operation of the controller, run to completion. *)
Inductive step : machine -> machine -> Prop :=
| step_command (cmd : string) (m : machine) :
    step m (final (wrigley_command cmd m))
| step_status (m : machine) :
    step m (final (wrigley_status_show m))
| step_reset_isr (m : machine) :
    step m (final (wrigley_reset_isr m))
| step_reset_fn (m : machine) :
    step m (final (wrigley_reset_fn m))
| step_reboot (event : Z) (m : machine) :
    step m (final (wrigley_process_reboot event m))
| step_shutdown (m : machine) :
    step m (final (wrigley_shutdown m)).

(** The states a controller goes through after [m0]. *)
Inductive reaches (m0 : machine) : machine -> Prop :=
| reaches_refl : reaches m0 m0
| reaches_step (m m' : machine) : reaches m0 m -> step m m' -> reaches m0 m'.

(** The state a successful attach leaves: the driver structure is fresh, the
    lines are at whatever level the board holds them. *)
Definition attached (pe : probe_env) (board m : machine) : Prop :=
  result (wrigley_probe pe board) = 0 /\ m = final (wrigley_probe pe board).

(** The reachable states of the controller. *)
Definition reachable (m : machine) : Prop :=
  exists pe board m0, attached pe board m0 /\ reaches m0 m.

(** The invariant of the data model: an [Off] status means that POWER and
    DISABLE are both low. *)
Definition off_lines_low (m : machine) : Prop :=
  status (info m) = WRIGLEY_STATUS_OFF ->
  power_lvl m = false /\ disable_lvl m = false.

(** The status is one of the five enumerators. *)
Definition status_defined (m : machine) : Prop :=
  (status (info m) <= WRIGLEY_STATUS_UNDEFINED)%N.

End Driver.

(** ** Vocabulary of the statements *)

(** The machine after [k] more RESET-SENSE reads, everything else equal. *)
Definition advance (k : nat) (m : machine) : machine :=
  mk_machine (info m) (disable_lvl m) (power_lvl m) (flash_lvl m)
    (reset_in m) (k + sampled m).

(** The machine with another status, everything else equal. *)
Definition with_status (s : N) (m : machine) : machine :=
  mk_machine (mk_info (boot_flash (info m)) (tcmd_suspended (info m)) s
                (rdev_dev (info m)))
    (disable_lvl m) (power_lvl m) (flash_lvl m) (reset_in m) (sampled m).

(** The events a verification loop may produce: a RESET-SENSE read, or the
    400 ms sleep between two reads. *)
Definition is_poll (e : event) : bool :=
  match e with
  | EvGpioGet reset_gpio _ => true
  | EvMsleep 400 => true
  | _ => false
  end.

Definition is_reset_read (e : event) : bool :=
  match e with
  | EvGpioGet reset_gpio _ => true
  | _ => false
  end.

Definition is_lock (e : event) : bool :=
  match e with
  | EvMutexLock => true
  | _ => false
  end.

Definition is_uevent (e : event) : bool :=
  match e with
  | EvUevent _ => true
  | _ => false
  end.

Definition is_gpio_out (e : event) : bool :=
  match e with
  | EvGpioOut _ _ => true
  | _ => false
  end.

(** How many events of a kind a run produced. *)
Definition count (p : event -> bool) (l : list event) : nat :=
  List.length (filter p l).

(** Some / none of the next [n] RESET-SENSE samples of [m] is high. *)
Definition some_high (n : nat) (m : machine) : Prop :=
  exists i : nat, (i < n)%nat /\ reset_in m (i + sampled m) <> 0.
Definition all_low (n : nat) (m : machine) : Prop :=
  forall i : nat, (i < n)%nat -> reset_in m (i + sampled m) = 0.
Definition all_high (n : nat) (m : machine) : Prop :=
  forall i : nat, (i < n)%nat -> reset_in m (i + sampled m) <> 0.

(** The five command texts of [wrigley_command]. *)
Definition known_command (s : string) : Prop :=
  s = "shutdown" \/ s = "powerup" \/ s = "bootmode_normal" \/
  s = "bootmode_flash" \/ s = "suspend".

(** The status text as the specification words it: the token of the status,
    an out-of-range value counting as [Undefined]. *)
Definition status_text_spec (s : N) : string :=
  match s with
  | 0%N => "normal"
  | 1%N => "flash"
  | 2%N => "resetting"
  | 3%N => "off"
  | _ => "undefined"
  end.

Definition newline : string := String "010"%char EmptyString.

(** ** Concrete machines used in the examples *)

(** A modem whose RESET-SENSE reads low three times and high afterwards. *)
Definition slow_modem (k : nat) : Z := if (k <? 3)%nat then 0 else 1.

(** A modem that holds RESET-SENSE low, and one that holds it high. *)
Definition dead_modem (k : nat) : Z := 0.
Definition live_modem (k : nat) : Z := 1.

(** A board whose boot loader left the POWER and DISABLE lines high while the
    modem holds RESET-SENSE low. *)
Definition board_rails_up : machine :=
  mk_machine (mk_info false false 0 false) true true false dead_modem 0.

(** A board with all lines low and the modem silent. *)
Definition board_cold : machine :=
  mk_machine (mk_info false false 0 false) false false false dead_modem 0.

(** Every kernel request of [wrigley_probe] succeeds. *)
Definition probe_ok : probe_env := mk_probe_env true 0 0 0 0 0 0.

(** An attached controller in each of a few states. *)
Definition ctrl_off : machine :=
  mk_machine (mk_info true false WRIGLEY_STATUS_OFF true) false false false slow_modem 0.
Definition ctrl_normal : machine :=
  mk_machine (mk_info false false WRIGLEY_STATUS_NORMAL true) true true false live_modem 0.
Definition ctrl_suspended : machine :=
  mk_machine (mk_info false true WRIGLEY_STATUS_NORMAL true) true true false live_modem 0.
Definition ctrl_stray : machine :=
  mk_machine (mk_info false false 5 true) true true false live_modem 0.

(** ** Vocabulary of the further properties *)

Definition is_unlock (e : event) : bool :=
  match e with
  | EvMutexUnlock => true
  | _ => false
  end.

(** The time an action spent in [msleep], in milliseconds. *)
Fixpoint slept (l : list event) : Z :=
  match l with
  | [] => 0
  | EvMsleep ms :: l' => ms + slept l'
  | _ :: l' => slept l'
  end.

(** A [gpio_request] of line [l] that succeeded, and a [gpio_free] of it. *)
Definition gpio_eqb (a b : gpio) : bool :=
  match a, b with
  | disable_gpio, disable_gpio => true
  | power_gpio, power_gpio => true
  | flash_gpio, flash_gpio => true
  | reset_gpio, reset_gpio => true
  | _, _ => false
  end.

Definition is_request_ok (l : gpio) (e : event) : bool :=
  match e with
  | EvGpioRequest l' err => gpio_eqb l l' && (err =? 0)
  | _ => false
  end.

Definition is_free (l : gpio) (e : event) : bool :=
  match e with
  | EvGpioFree l' => gpio_eqb l l'
  | _ => false
  end.

Definition is_irq_ok (e : event) : bool :=
  match e with
  | EvRequestIrq err => err =? 0
  | _ => false
  end.

Definition is_free_irq (e : event) : bool :=
  match e with
  | EvFreeIrq => true
  | _ => false
  end.

Definition is_kfree (e : event) : bool :=
  match e with
  | EvKfree => true
  | _ => false
  end.

Definition is_register_reboot (e : event) : bool :=
  match e with
  | EvRegisterReboot => true
  | _ => false
  end.

(** The first error among the requests of [wrigley_probe], in the order the
    function makes them; 0 when there is none. *)
Definition probe_first_error (ENOMEM : Z) (pe : probe_env) : Z :=
  if negb (kzalloc_ok pe) then - ENOMEM
  else if negb (request_disable pe =? 0) then request_disable pe
  else if negb (request_reset pe =? 0) then request_reset pe
  else if negb (request_irq pe =? 0) then request_irq pe
  else if negb (request_flash pe =? 0) then request_flash pe
  else if negb (request_power pe =? 0) then request_power pe
  else register_rdev pe.

(** Every request of [wrigley_probe] is granted. *)
Definition probe_succeeds (pe : probe_env) : bool :=
  kzalloc_ok pe && (request_disable pe =? 0) && (request_reset pe =? 0) &&
  (request_irq pe =? 0) && (request_flash pe =? 0) &&
  (request_power pe =? 0) && (register_rdev pe =? 0).

(** Machines and kernel answers used in the examples below. *)
Definition probe_no_power : probe_env := mk_probe_env true 0 0 0 0 (-16) 0.
Definition ctrl_undefined : machine :=
  mk_machine (mk_info false false WRIGLEY_STATUS_UNDEFINED true)
    true true false slow_modem 0.

(** ** Basic facts *)

Lemma advance_0 (m : machine) : advance 0 m = m.
Proof. destruct m; reflexivity. Qed.

Lemma advance_S (k : nat) (m : machine) : advance k (advance 1 m) = advance (S k) m.
Proof.
  unfold advance; simpl. f_equal. now rewrite Nat.add_succ_r.
Qed.

Lemma with_status_same (m : machine) : with_status (status (info m)) m = m.
Proof. destruct m as [[bf su st rd] d p f ri sa]; reflexivity. Qed.

(** [strcmp] answers 0 exactly when the two C strings are the same. *)
Lemma strcmp_eq_0 (cs ct : string) : strcmp cs ct = 0 <-> c_str cs = c_str ct.
Proof.
  revert ct; induction cs as [|c1 cs IH]; intros [|c2 ct]; simpl.
  - tauto.
  - destruct (Ascii.eqb_spec c2 zero); split; intro H; congruence || lia || discriminate.
  - destruct (Ascii.eqb_spec c1 zero); split; intro H; congruence || lia || discriminate.
  - destruct (Ascii.eqb_spec c1 c2) as [->|Hne]; simpl.
    + destruct (Ascii.eqb_spec c2 zero).
      * tauto.
      * rewrite IH. split; intro H; [now f_equal | now injection H].
    + split.
      * destruct (nat_of_ascii c1 <? nat_of_ascii c2)%nat; lia.
      * destruct (Ascii.eqb_spec c1 zero), (Ascii.eqb_spec c2 zero);
          intro H; try discriminate; congruence.
Qed.

Lemma c_str_nul_free (s : string) : nul_free s = true -> c_str s = s.
Proof.
  induction s as [|c s IH]; cbn; [reflexivity|].
  destruct (Ascii.eqb c zero); cbn; [discriminate|].
  intro H. now rewrite IH.
Qed.

Lemma strcmp_eqb (cs ct : string) :
  (strcmp cs ct =? 0) = String.eqb (c_str cs) (c_str ct).
Proof.
  destruct (String.eqb_spec (c_str cs) (c_str ct)) as [E|E].
  - apply Z.eqb_eq, strcmp_eq_0, E.
  - apply Z.eqb_neq. intro H. apply E, strcmp_eq_0, H.
Qed.

(** ** The verification loops *)

Lemma powerup_poll_S (n : nat) (err : Z) (m : machine) :
  powerup_poll (S n) err m =
  let v := reset_in m (sampled m) in
  if negb (v =? 0) then ((0, advance 1 m), [EvGpioGet reset_gpio v])
  else
    let r := powerup_poll n err (advance 1 m) in
    ((result r, final r), EvGpioGet reset_gpio v :: EvMsleep 400 :: events r).
Proof.
  cbn [powerup_poll]. unfold bind, gpio_get_value, msleep, emit, ret. cbn zeta.
  destruct (negb (reset_in m (sampled m) =? 0)); [reflexivity|].
  change (mk_machine (info m) (disable_lvl m) (power_lvl m) (flash_lvl m)
            (reset_in m) (S (sampled m))) with (advance 1 m).
  destruct (powerup_poll n err (advance 1 m)) as [[a m'] e]. reflexivity.
Qed.

Lemma powerdown_poll_S (n : nat) (m : machine) :
  powerdown_poll (S n) m =
  let v := reset_in m (sampled m) in
  if v =? 0 then ((tt, advance 1 m), [EvGpioGet reset_gpio v])
  else
    let r := powerdown_poll n (advance 1 m) in
    ((result r, final r), EvGpioGet reset_gpio v :: EvMsleep 400 :: events r).
Proof.
  cbn [powerdown_poll]. unfold bind, gpio_get_value, msleep, emit, ret. cbn zeta.
  destruct (reset_in m (sampled m) =? 0); [reflexivity|].
  change (mk_machine (info m) (disable_lvl m) (power_lvl m) (flash_lvl m)
            (reset_in m) (S (sampled m))) with (advance 1 m).
  destruct (powerdown_poll n (advance 1 m)) as [[a m'] e]. reflexivity.
Qed.

(** Looking at the samples of [advance 1 m] is looking one sample further
    in [m]. *)
Lemma sample_advance_1 (i : nat) (m : machine) :
  reset_in (advance 1 m) (i + sampled (advance 1 m)) = reset_in m (S i + sampled m).
Proof. simpl. now rewrite Nat.add_succ_r. Qed.

(** The power-up loop reads between one and [n] samples, touches nothing but
    the sample counter, and answers 0 exactly when it met a high sample. *)
Lemma powerup_poll_spec (n : nat) (err : Z) (m : machine) :
  exists k : nat,
    (k <= n)%nat /\ (n <> 0%nat -> (1 <= k)%nat) /\
    final (powerup_poll n err m) = advance k m /\
    forallb is_poll (events (powerup_poll n err m)) = true /\
    count is_reset_read (events (powerup_poll n err m)) = k /\
    (some_high n m -> result (powerup_poll n err m) = 0) /\
    (all_low n m -> result (powerup_poll n err m) = err /\ k = n).
Proof.
  revert m; induction n as [|n IH]; intro m.
  - exists 0%nat. cbn. rewrite advance_0.
    refine (conj _ (conj _ (conj _ (conj _ (conj _ (conj _ _)))))); try lia; try reflexivity.
    intros (i & Hi & _); lia.
  - rewrite powerup_poll_S. cbn zeta.
    destruct (reset_in m (sampled m) =? 0) eqn:E; cbn [negb].
    + destruct (IH (advance 1 m)) as (k & Hk & _ & Hf & Hp & Hc & Hhi & Hlo).
      exists (S k). unfold final, result, events in *; cbn [fst snd].
      refine (conj _ (conj _ (conj _ (conj _ (conj _ (conj _ _)))))).
      * lia.
      * lia.
      * now rewrite Hf, advance_S.
      * cbn. exact Hp.
      * unfold count in *; cbn. now rewrite Hc.
      * intros (i & Hi & Hne). apply Hhi.
        destruct i as [|i].
        -- apply Z.eqb_eq in E. now elim Hne.
        -- exists i. split; [lia | now rewrite sample_advance_1].
      * intro H.
        assert (Hl : all_low n (advance 1 m)).
        { intros i Hi. rewrite sample_advance_1. apply H; lia. }
        destruct (Hlo Hl) as [-> ->]. split; reflexivity.
    + exists 1%nat. unfold final, result, events; cbn [fst snd].
      apply Z.eqb_neq in E.
      refine (conj _ (conj _ (conj _ (conj _ (conj _ (conj _ _)))))); try lia; try reflexivity.
      intro H. elim E. apply (H 0%nat). lia.
Qed.

(** The power-down loop: the same with the levels exchanged, and no result. *)
Lemma powerdown_poll_spec (n : nat) (m : machine) :
  exists k : nat,
    (k <= n)%nat /\ (n <> 0%nat -> (1 <= k)%nat) /\
    final (powerdown_poll n m) = advance k m /\
    forallb is_poll (events (powerdown_poll n m)) = true /\
    count is_reset_read (events (powerdown_poll n m)) = k /\
    (all_high n m -> k = n).
Proof.
  revert m; induction n as [|n IH]; intro m.
  - exists 0%nat. cbn. rewrite advance_0.
    refine (conj _ (conj _ (conj _ (conj _ (conj _ _))))); try lia; reflexivity.
  - rewrite powerdown_poll_S. cbn zeta.
    destruct (reset_in m (sampled m) =? 0) eqn:E.
    + exists 1%nat. unfold final, result, events; cbn [fst snd].
      apply Z.eqb_eq in E.
      refine (conj _ (conj _ (conj _ (conj _ (conj _ _))))); try lia; try reflexivity.
      intro H. elim (H 0%nat); [lia | exact E].
    + destruct (IH (advance 1 m)) as (k & Hk & _ & Hf & Hp & Hc & Hhi).
      exists (S k). unfold final, result, events in *; cbn [fst snd].
      refine (conj _ (conj _ (conj _ (conj _ (conj _ _))))).
      * lia.
      * lia.
      * now rewrite Hf, advance_S.
      * cbn. exact Hp.
      * unfold count in *; cbn. now rewrite Hc.
      * intro H. f_equal. apply Hhi. intros i Hi. rewrite sample_advance_1. apply H; lia.
Qed.

(** ** What each operation does *)

Ltac run_action :=
  unfold bind, ret, emit, mutex_lock, mutex_unlock, get_info, set_info,
    set_status, set_boot_flash, set_tcmd_suspended, set_rdev_dev,
    gpio_direction_output, kobject_uevent, kobject_uevent_env;
  cbn -[powerdown_poll powerup_poll Z.eqb N.eqb N.ltb].

(** [wrigley_do_powerdown] on a controller that is [Off]. *)
Lemma wrigley_do_powerdown_off (m : machine) :
  status (info m) = WRIGLEY_STATUS_OFF ->
  wrigley_do_powerdown m = ((0, m), [EvMutexLock; EvMutexUnlock]).
Proof.
  intro H. unfold wrigley_do_powerdown. run_action.
  rewrite H. reflexivity.
Qed.

(** [wrigley_do_powerdown] on a controller that is not [Off]. *)
Lemma wrigley_do_powerdown_on (m : machine) :
  status (info m) <> WRIGLEY_STATUS_OFF ->
  exists (k : nat) (polls : list event),
    (1 <= k <= 10)%nat /\
    forallb is_poll polls = true /\
    count is_reset_read polls = k /\
    (all_high 10 m -> k = 10%nat) /\
    wrigley_do_powerdown m =
      ((0, mk_machine
             (mk_info (boot_flash (info m)) (tcmd_suspended (info m))
                WRIGLEY_STATUS_OFF (rdev_dev (info m)))
             false false (flash_lvl m) (reset_in m) (k + sampled m)),
       EvMutexLock :: EvGpioOut disable_gpio false ::
         polls ++ [EvGpioOut power_gpio false; EvMutexUnlock]).
Proof.
  intro H. apply N.eqb_neq in H.
  unfold wrigley_do_powerdown. run_action. rewrite H.
  set (m1 := mk_machine (info m) false (power_lvl m) (flash_lvl m)
               (reset_in m) (sampled m)).
  destruct (powerdown_poll_spec 10 m1) as (k & Hk & Hk1 & Hf & Hp & Hc & Hhi).
  destruct (powerdown_poll 10 m1) as [[u m2] e].
  unfold final, events in *; cbn [fst snd] in *. subst m2.
  exists k, e. cbn.
  refine (conj _ (conj Hp (conj Hc (conj Hhi _)))).
  - split; [apply Hk1; discriminate | exact Hk].
  - reflexivity.
Qed.

(** [wrigley_do_powerdown] returns 0 and leaves the status [Off]. *)
Lemma wrigley_do_powerdown_returns (m : machine) :
  result (wrigley_do_powerdown m) = 0 /\
  status (info (final (wrigley_do_powerdown m))) = WRIGLEY_STATUS_OFF.
Proof.
  destruct (N.eq_dec (status (info m)) WRIGLEY_STATUS_OFF) as [Hoff | Hon].
  - rewrite (wrigley_do_powerdown_off m Hoff). split; [reflexivity | exact Hoff].
  - destruct (wrigley_do_powerdown_on m Hon) as (k & polls & _ & _ & _ & _ & E).
    rewrite E. split; reflexivity.
Qed.

(** [wrigley_do_powerup] on a controller that is already up. *)
Lemma wrigley_do_powerup_on (m : machine) :
  status (info m) = WRIGLEY_STATUS_NORMAL \/ status (info m) = WRIGLEY_STATUS_FLASH ->
  wrigley_do_powerup m = ((-1, m), [EvMutexLock; EvMutexUnlock]).
Proof.
  intro H. unfold wrigley_do_powerup. run_action.
  destruct H as [-> | ->]; reflexivity.
Qed.

(** The power-up loop started with [err = -1] answers 0 or -1. *)
Lemma powerup_poll_result (n : nat) (m : machine) :
  result (powerup_poll n (-1) m) = 0 \/ result (powerup_poll n (-1) m) = -1.
Proof.
  revert m; induction n as [|n IH]; intro m.
  - right; reflexivity.
  - rewrite powerup_poll_S. cbn zeta.
    destruct (negb (reset_in m (sampled m) =? 0)); [left; reflexivity|].
    apply IH.
Qed.

(** [wrigley_do_powerup] on a controller that is not up. *)
Lemma wrigley_do_powerup_off (m : machine) :
  status (info m) <> WRIGLEY_STATUS_NORMAL ->
  status (info m) <> WRIGLEY_STATUS_FLASH ->
  exists (k : nat) (polls : list event) (err : Z),
    (1 <= k <= 10)%nat /\
    forallb is_poll polls = true /\
    count is_reset_read polls = k /\
    (some_high 10 m -> err = 0) /\
    (all_low 10 m -> err = -1 /\ k = 10%nat) /\
    (err = 0 \/ err = -1) /\
    wrigley_do_powerup m =
      ((err, mk_machine
               (mk_info (boot_flash (info m)) (tcmd_suspended (info m))
                  (if err =? 0
                   then (if boot_flash (info m)
                         then WRIGLEY_STATUS_FLASH else WRIGLEY_STATUS_NORMAL)
                   else WRIGLEY_STATUS_UNDEFINED)
                  (rdev_dev (info m)))
               true true (boot_flash (info m)) (reset_in m) (k + sampled m)),
       EvMutexLock :: EvGpioOut flash_gpio (boot_flash (info m)) ::
         EvGpioOut disable_gpio true :: EvGpioOut power_gpio true ::
         polls ++ [EvMutexUnlock]).
Proof.
  intros Hn Hf. apply N.eqb_neq in Hn, Hf.
  destruct m as [[bf su st rd] d p f ri sa]; cbn [info status boot_flash] in *.
  set (m1 := mk_machine (mk_info bf su st rd) true true bf ri sa).
  destruct (powerup_poll_spec 10 (-1) m1) as (k & Hk & Hk1 & Hfin & Hp & Hc & Hhi & Hlo).
  pose proof (powerup_poll_result 10 m1) as Hres.
  exists k, (events (powerup_poll 10 (-1) m1)), (result (powerup_poll 10 (-1) m1)).
  refine (conj _ (conj Hp (conj Hc (conj Hhi (conj Hlo (conj Hres _)))))).
  { split; [apply Hk1; discriminate | exact Hk]. }
  unfold wrigley_do_powerup. run_action. rewrite Hn, Hf. cbn [orb].
  destruct bf; cbn -[powerup_poll Z.eqb]; fold m1;
    destruct (powerup_poll 10 (-1) m1) as [[err m2] e];
    unfold final, events, result in *; cbn [fst snd] in *; subst m2;
    destruct Hres as [-> | ->]; reflexivity.
Qed.

(** ** Power up *)

(** C1.  From every state whose status is neither Normal nor Flash,
    [wrigley_do_powerup] takes the power lock, drives FLASH-STRAP to
    [boot_flash], DISABLE high and POWER high in that order, then reads
    RESET-SENSE between one and ten times and releases the lock.  When one of
    the ten samples at hand is high it returns 0 and the status is Flash if
    [boot_flash] is set and Normal otherwise; when all ten are low it has read
    ten samples, the status is Undefined and it returns -1.  The boot mode,
    the suspend flag and the registration are left alone. *)
Theorem powerup_from_unpowered (m : machine) :
  status (info m) <> WRIGLEY_STATUS_NORMAL ->
  status (info m) <> WRIGLEY_STATUS_FLASH ->
  let r := wrigley_do_powerup m in
  flash_lvl (final r) = boot_flash (info m) /\
  disable_lvl (final r) = true /\
  power_lvl (final r) = true /\
  boot_flash (info (final r)) = boot_flash (info m) /\
  tcmd_suspended (info (final r)) = tcmd_suspended (info m) /\
  rdev_dev (info (final r)) = rdev_dev (info m) /\
  (exists (k : nat) (polls : list event),
      (1 <= k <= 10)%nat /\
      sampled (final r) = (k + sampled m)%nat /\
      forallb is_poll polls = true /\
      count is_reset_read polls = k /\
      events r =
        EvMutexLock :: EvGpioOut flash_gpio (boot_flash (info m)) ::
          EvGpioOut disable_gpio true :: EvGpioOut power_gpio true ::
          polls ++ [EvMutexUnlock]) /\
  (some_high 10 m ->
     result r = 0 /\
     status (info (final r)) =
       (if boot_flash (info m)
        then WRIGLEY_STATUS_FLASH else WRIGLEY_STATUS_NORMAL)) /\
  (all_low 10 m ->
     result r = -1 /\
     status (info (final r)) = WRIGLEY_STATUS_UNDEFINED /\
     sampled (final r) = (10 + sampled m)%nat).
Proof.
  intros Hn Hf r.
  destruct (wrigley_do_powerup_off m Hn Hf)
    as (k & polls & err & Hk & Hp & Hc & Hhi & Hlo & _ & E).
  subst r. rewrite E. unfold final, result, events; cbn [fst snd info
    flash_lvl disable_lvl power_lvl boot_flash tcmd_suspended rdev_dev
    status sampled].
  refine (conj eq_refl (conj eq_refl (conj eq_refl (conj eq_refl
            (conj eq_refl (conj eq_refl (conj _ (conj _ _)))))))).
  - exists k, polls. auto.
  - intro H. rewrite (Hhi H). split; reflexivity.
  - intro H. destruct (Hlo H) as [-> ->]. auto.
Qed.

(** C4.  In a state whose status is Normal or Flash, [wrigley_do_powerup]
    returns -1 and leaves the whole machine as it was: status, boot mode,
    suspend flag and the four lines.  It takes and releases the lock and
    makes no GPIO call, neither a write nor a read. *)
Theorem powerup_when_already_on (m : machine) :
  status (info m) = WRIGLEY_STATUS_NORMAL \/ status (info m) = WRIGLEY_STATUS_FLASH ->
  let r := wrigley_do_powerup m in
  result r = -1 /\
  final r = m /\
  events r = [EvMutexLock; EvMutexUnlock] /\
  sampled (final r) = sampled m.
Proof.
  intros H r. subst r. rewrite (wrigley_do_powerup_on m H).
  repeat split.
Qed.

(** ** Power down *)

(** C2, as the code has it.  [wrigley_do_powerdown] returns 0 and ends with
    status Off from every state and whatever RESET-SENSE does.  It ends
    with POWER low when the starting status is not Off or POWER was low
    already.  From a status other than Off it drives DISABLE low, reads
    RESET-SENSE between one and ten times, then drives POWER low; ten reads
    that are all high change neither the return value nor the final status. *)
Theorem powerdown_ends_off (m : machine) :
  let r := wrigley_do_powerdown m in
  result r = 0 /\
  status (info (final r)) = WRIGLEY_STATUS_OFF /\
  (status (info m) <> WRIGLEY_STATUS_OFF \/ power_lvl m = false ->
   power_lvl (final r) = false) /\
  (status (info m) <> WRIGLEY_STATUS_OFF ->
   disable_lvl (final r) = false /\
   exists (k : nat) (polls : list event),
     (1 <= k <= 10)%nat /\
     (all_high 10 m -> k = 10%nat) /\
     forallb is_poll polls = true /\
     count is_reset_read polls = k /\
     events r =
       EvMutexLock :: EvGpioOut disable_gpio false ::
         polls ++ [EvGpioOut power_gpio false; EvMutexUnlock]).
Proof.
  intro r. subst r.
  destruct (N.eq_dec (status (info m)) WRIGLEY_STATUS_OFF) as [Hoff | Hon].
  - rewrite (wrigley_do_powerdown_off m Hoff).
    unfold result, final, events; cbn [fst snd].
    refine (conj eq_refl (conj Hoff (conj _ _))).
    + intros [H | H]; [contradiction | exact H].
    + intro H; contradiction.
  - destruct (wrigley_do_powerdown_on m Hon) as (k & polls & Hk & Hp & Hc & Hhi & E).
    rewrite E. unfold result, final, events; cbn [fst snd info status
      power_lvl disable_lvl].
    refine (conj eq_refl (conj eq_refl (conj (fun _ => eq_refl) _))).
    intros _. split; [reflexivity|]. exists k, polls. auto.
Qed.

(** C5.  On a controller that is Off, [wrigley_do_powerdown] returns 0 and
    changes nothing: it takes and releases the lock and makes no GPIO call.
    So of two calls in a row, from any state, both return 0, the status is
    Off after each, and the second changes nothing. *)
Theorem powerdown_idempotent (m : machine) :
  (status (info m) = WRIGLEY_STATUS_OFF ->
   wrigley_do_powerdown m = ((0, m), [EvMutexLock; EvMutexUnlock])) /\
  (let r1 := wrigley_do_powerdown m in
   let r2 := wrigley_do_powerdown (final r1) in
   result r1 = 0 /\ status (info (final r1)) = WRIGLEY_STATUS_OFF /\
   result r2 = 0 /\ status (info (final r2)) = WRIGLEY_STATUS_OFF /\
   final r2 = final r1 /\
   events r2 = [EvMutexLock; EvMutexUnlock]).
Proof.
  split.
  - apply wrigley_do_powerdown_off.
  - cbn zeta.
    destruct (wrigley_do_powerdown_returns m) as (H0 & Hs).
    rewrite (wrigley_do_powerdown_off _ Hs).
    unfold result, final, events in *; cbn [fst snd].
    refine (conj H0 (conj Hs (conj eq_refl (conj Hs (conj eq_refl eq_refl))))).
Qed.

(** ** The reset interrupt *)

(** C3.  The hard handler of the reset interrupt looks at the suspend flag.
    Suspended: it returns [IRQ_HANDLED], the machine is untouched and nothing
    is called; the threaded handler is not woken, so the whole interrupt
    neither changes a line nor sends a notification.  Not suspended: it sets
    the status to Resetting, touches nothing else and returns
    [IRQ_WAKE_THREAD]; the interrupt then runs the threaded handler on that
    machine. *)
Theorem reset_isr_suspend_filter (m : machine) :
  (tcmd_suspended (info m) = true ->
   wrigley_reset_isr m = ((IRQ_HANDLED, m), []) /\
   reset_irq m = ((IRQ_HANDLED, m), [])) /\
  (tcmd_suspended (info m) = false ->
   wrigley_reset_isr m =
     ((IRQ_WAKE_THREAD, with_status WRIGLEY_STATUS_RESETTING m), []) /\
   reset_irq m = wrigley_reset_fn (with_status WRIGLEY_STATUS_RESETTING m) /\
   status (info (final (reset_irq m))) = WRIGLEY_STATUS_RESETTING).
Proof.
  destruct m as [[bf su st rd] d p f ri sa]. cbn [info tcmd_suspended].
  split; intros ->.
  - split; reflexivity.
  - split; [reflexivity|]. split; destruct rd; reflexivity.
Qed.

(** ** Commands *)

(** A text that is none of the five literals is refused, and nothing else
    happens. *)
Lemma wrigley_command_unknown (EINVAL : Z) (cmd : string) (m : machine) :
  ~ known_command (c_str cmd) ->
  wrigley_command EINVAL cmd m = ((- EINVAL, m), []).
Proof.
  intro H. unfold wrigley_command. rewrite !strcmp_eqb.
  unfold known_command in H.
  repeat match goal with
         | |- context [String.eqb ?a ?b] =>
             destruct (String.eqb_spec a b) as [E | E];
             [exfalso; apply H; cbn in E; tauto | clear E]
         end.
  reflexivity.
Qed.

(** C6.  [wrigley_command] compares the command text with five literals.  The
    text "shutdown" runs [wrigley_do_powerdown], "powerup" runs
    [wrigley_do_powerup], "bootmode_normal" and "bootmode_flash" store the boot
    mode, false and true, and return 0, "suspend" sets the suspend flag and
    returns 0.  Any other text returns [-EINVAL], leaves the whole machine as
    it was and calls nothing. *)
Theorem command_dispatch (EINVAL : Z) (cmd : string) (m : machine) :
  (c_str cmd = "shutdown" ->
   wrigley_command EINVAL cmd m = wrigley_do_powerdown m) /\
  (c_str cmd = "powerup" ->
   wrigley_command EINVAL cmd m = wrigley_do_powerup m) /\
  (c_str cmd = "bootmode_normal" ->
   wrigley_command EINVAL cmd m = wrigley_set_flash_mode false m /\
   wrigley_set_flash_mode false m =
     ((0, mk_machine (mk_info false (tcmd_suspended (info m)) (status (info m))
                        (rdev_dev (info m)))
            (disable_lvl m) (power_lvl m) (flash_lvl m) (reset_in m) (sampled m)),
      [])) /\
  (c_str cmd = "bootmode_flash" ->
   wrigley_command EINVAL cmd m = wrigley_set_flash_mode true m /\
   wrigley_set_flash_mode true m =
     ((0, mk_machine (mk_info true (tcmd_suspended (info m)) (status (info m))
                        (rdev_dev (info m)))
            (disable_lvl m) (power_lvl m) (flash_lvl m) (reset_in m) (sampled m)),
      [])) /\
  (c_str cmd = "suspend" ->
   wrigley_command EINVAL cmd m =
     ((0, mk_machine (mk_info (boot_flash (info m)) true (status (info m))
                        (rdev_dev (info m)))
            (disable_lvl m) (power_lvl m) (flash_lvl m) (reset_in m) (sampled m)),
      [])) /\
  (~ known_command (c_str cmd) ->
   wrigley_command EINVAL cmd m = ((- EINVAL, m), [])).
Proof.
  refine (conj _ (conj _ (conj _ (conj _ (conj _ _))))); intro H;
    [unfold wrigley_command; rewrite !strcmp_eqb .. | ].
  - rewrite H. reflexivity.
  - rewrite H. reflexivity.
  - rewrite H. split; reflexivity.
  - rewrite H. split; reflexivity.
  - rewrite H. reflexivity.
  - now apply wrigley_command_unknown.
Qed.

(** ** Status text *)

Lemma substring_all (s : string) (n : nat) :
  (String.length s <= n)%nat -> substring 0 n s = s.
Proof.
  revert n; induction s as [|c s IH]; intros [|n] H; cbn in *; try reflexivity; try lia.
  f_equal. apply IH. lia.
Qed.

(** [wrigley_status_show] in one equation: the status is clamped in the
    structure itself, and the text is that of the clamped status. *)
Lemma wrigley_status_show_eq (size : nat) (m : machine) :
  wrigley_status_show size m =
    ((snprintf_line size
        (nth (N.to_nat (N.min (status (info m)) WRIGLEY_STATUS_UNDEFINED))
           wrigley_status_str ""),
      with_status (N.min (status (info m)) WRIGLEY_STATUS_UNDEFINED) m), []).
Proof.
  destruct m as [[bf su st rd] d p f ri sa].
  unfold wrigley_status_show, with_status. run_action.
  destruct (N.ltb_spec WRIGLEY_STATUS_UNDEFINED st) as [H | H].
  - rewrite N.min_r by (apply N.lt_le_incl, H). reflexivity.
  - rewrite N.min_l by exact H. reflexivity.
Qed.

(** The table holds the token of every status in range. *)
Lemma wrigley_status_str_spec (s : N) :
  nth (N.to_nat (N.min s WRIGLEY_STATUS_UNDEFINED)) wrigley_status_str "" =
  status_text_spec s.
Proof.
  destruct (N.le_gt_cases s WRIGLEY_STATUS_UNDEFINED) as [H | H].
  - rewrite N.min_l by exact H.
    assert (Hc : (s = 0 \/ s = 1 \/ s = 2 \/ s = 3 \/ s = 4)%N)
      by (unfold WRIGLEY_STATUS_UNDEFINED in H; lia).
    destruct Hc as [-> | [-> | [-> | [-> | ->]]]]; reflexivity.
  - rewrite N.min_r by (apply N.lt_le_incl, H).
    destruct s as [|[[[|[]|]|[[]|[]|]|]|[[]|[]|]|]];
      try reflexivity; cbv in H; try discriminate; destruct p; discriminate.
Qed.

Lemma status_text_spec_length (s : N) :
  (String.length (String.append (status_text_spec s) newline) <= 10)%nat.
Proof.
  destruct s as [|[[[|[]|]|[[]|[]|]|]|[[]|[]|]|]]; cbn; lia.
Qed.

(** C8, as the code has it.  With room for the longest token in the buffer,
    [wrigley_status_show] writes the token of the status and a newline, an
    out-of-range status giving the token of Undefined, and returns the length
    of that text.  It calls nothing, and leaves the boot mode, the suspend
    flag, the registration and the lines as they were.  The status it leaves
    is the clamped one: a status in range is unchanged, so that the machine is
    as before; an out-of-range status is overwritten with Undefined. *)
Theorem status_show_clamps (size : nat) (m : machine) :
  (11 <= size)%nat ->
  let r := wrigley_status_show size m in
  fst (result r) = String.append (status_text_spec (status (info m))) newline /\
  snd (result r) = Z.of_nat (String.length (fst (result r))) /\
  events r = [] /\
  final r = with_status (N.min (status (info m)) WRIGLEY_STATUS_UNDEFINED) m /\
  ((status (info m) <= WRIGLEY_STATUS_UNDEFINED)%N -> final r = m) /\
  ((WRIGLEY_STATUS_UNDEFINED < status (info m))%N ->
   status (info (final r)) = WRIGLEY_STATUS_UNDEFINED).
Proof.
  intros Hsize r. subst r.
  rewrite wrigley_status_show_eq, wrigley_status_str_spec.
  unfold result, final, events, snprintf_line; cbn [fst snd].
  fold newline.
  rewrite substring_all by (pose proof (status_text_spec_length (status (info m))); lia).
  refine (conj eq_refl (conj eq_refl (conj eq_refl (conj eq_refl (conj _ _))))).
  - intro H. rewrite N.min_l by exact H. apply with_status_same.
  - intro H. rewrite N.min_r by (apply N.lt_le_incl, H). reflexivity.
Qed.

(** ** Reboot *)

Lemma count_app (p : event -> bool) (l1 l2 : list event) :
  count p (l1 ++ l2) = (count p l1 + count p l2)%nat.
Proof. unfold count. now rewrite filter_app, length_app. Qed.

(** A verification loop takes no lock, sends no notification and drives no
    line. *)
Lemma polls_are_quiet (polls : list event) :
  forallb is_poll polls = true ->
  count is_lock polls = 0%nat /\ count is_uevent polls = 0%nat /\
  count is_gpio_out polls = 0%nat.
Proof.
  induction polls as [|e polls IH]; cbn [forallb]; intro H.
  - repeat split.
  - apply andb_true_iff in H. destruct H as [He Hp].
    destruct (IH Hp) as (H1 & H2 & H3).
    destruct e; try discriminate He; unfold count in *; cbn; auto.
Qed.

(** One call of [wrigley_do_powerdown] takes the power lock once and sends no
    notification. *)
Lemma wrigley_do_powerdown_counts (m : machine) :
  count is_lock (events (wrigley_do_powerdown m)) = 1%nat /\
  count is_uevent (events (wrigley_do_powerdown m)) = 0%nat.
Proof.
  destruct (N.eq_dec (status (info m)) WRIGLEY_STATUS_OFF) as [Hoff | Hon].
  - rewrite (wrigley_do_powerdown_off m Hoff). split; reflexivity.
  - destruct (wrigley_do_powerdown_on m Hon) as (k & polls & _ & Hp & _ & _ & E).
    rewrite E. unfold events; cbn [snd].
    destruct (polls_are_quiet polls Hp) as (H1 & H2 & _).
    change (EvMutexLock :: EvGpioOut disable_gpio false ::
              polls ++ [EvGpioOut power_gpio false; EvMutexUnlock])
      with ([EvMutexLock; EvGpioOut disable_gpio false] ++
              polls ++ [EvGpioOut power_gpio false; EvMutexUnlock]).
    rewrite !count_app, H1, H2. split; reflexivity.
Qed.

(** [wrigley_process_reboot] in one equation. *)
Lemma wrigley_process_reboot_eq (event : Z) (m : machine) :
  wrigley_process_reboot event m =
    ((NOTIFY_DONE, final (wrigley_do_powerdown m)),
     (if rdev_dev (info m) then [EvUevent ["WRIGLEY_SHUTDOWN=1"]] else []) ++
     events (wrigley_do_powerdown m)).
Proof.
  unfold wrigley_process_reboot, bind, get_info.
  destruct (rdev_dev (info m)); unfold kobject_uevent_env, emit, ret;
    destruct (wrigley_do_powerdown m) as [[z m'] e];
    cbn; rewrite ?app_nil_r; reflexivity.
Qed.

(** C9.  Whatever the status, Off included, [wrigley_process_reboot] returns
    [NOTIFY_DONE].  What it calls is, first, one change notification with
    the environment [WRIGLEY_SHUTDOWN=1] if the radio device is registered,
    and then exactly the calls of one [wrigley_do_powerdown], whose return
    value it drops: the power lock is taken once, no other notification is
    sent, and the machine it leaves is the one [wrigley_do_powerdown] leaves,
    with status Off. *)
Theorem reboot_powers_down (event : Z) (m : machine) :
  let r := wrigley_process_reboot event m in
  result r = NOTIFY_DONE /\
  final r = final (wrigley_do_powerdown m) /\
  events r =
    (if rdev_dev (info m) then [EvUevent ["WRIGLEY_SHUTDOWN=1"]] else []) ++
    events (wrigley_do_powerdown m) /\
  count is_uevent (events r) = (if rdev_dev (info m) then 1 else 0)%nat /\
  count is_lock (events r) = 1%nat /\
  status (info (final r)) = WRIGLEY_STATUS_OFF.
Proof.
  intro r. subst r. rewrite wrigley_process_reboot_eq. unfold result, final, events; cbn [fst snd].
  destruct (wrigley_do_powerdown_counts m) as [Hl Hu].
  destruct (wrigley_do_powerdown_returns m) as [_ Hs].
  unfold final, events in *.
  refine (conj eq_refl (conj eq_refl (conj eq_refl (conj _ (conj _ Hs))))).
  - rewrite count_app, Hu. destruct (rdev_dev (info m)); reflexivity.
  - rewrite count_app, Hl. destruct (rdev_dev (info m)); reflexivity.
Qed.

(** ** Error codes *)

(** C10.  [wrigley_do_powerup] returns 0 or -1 and nothing else.  It returns
    -1 when the controller is already up, and the same -1 when ten reads of
    RESET-SENSE found it low; the command "powerup" hands that value on
    unchanged.  An unknown command returns [-EINVAL], which differs from -1
    as soon as [EINVAL] is not 1. *)
Theorem powerup_errors_share_code (EINVAL : Z) (m : machine) :
  EINVAL <> 1 ->
  (result (wrigley_do_powerup m) = 0 \/ result (wrigley_do_powerup m) = -1) /\
  (status (info m) = WRIGLEY_STATUS_NORMAL \/ status (info m) = WRIGLEY_STATUS_FLASH ->
   result (wrigley_do_powerup m) = -1) /\
  (status (info m) <> WRIGLEY_STATUS_NORMAL ->
   status (info m) <> WRIGLEY_STATUS_FLASH ->
   all_low 10 m ->
   result (wrigley_do_powerup m) = -1) /\
  wrigley_command EINVAL "powerup" m = wrigley_do_powerup m /\
  (forall cmd : string,
      ~ known_command (c_str cmd) ->
      result (wrigley_command EINVAL cmd m) = - EINVAL /\
      result (wrigley_command EINVAL cmd m) <> -1).
Proof.
  intro HE.
  assert (Hon : status (info m) = WRIGLEY_STATUS_NORMAL \/
                status (info m) = WRIGLEY_STATUS_FLASH ->
                result (wrigley_do_powerup m) = -1).
  { intro H. now rewrite (wrigley_do_powerup_on m H). }
  refine (conj _ (conj Hon (conj _ (conj eq_refl _)))).
  - destruct (N.eq_dec (status (info m)) WRIGLEY_STATUS_NORMAL) as [Hn | Hn];
      [right; auto|].
    destruct (N.eq_dec (status (info m)) WRIGLEY_STATUS_FLASH) as [Hf | Hf];
      [right; auto|].
    destruct (wrigley_do_powerup_off m Hn Hf)
      as (k & polls & err & _ & _ & _ & _ & _ & Herr & E).
    rewrite E. exact Herr.
  - intros Hn Hf Hlow.
    destruct (wrigley_do_powerup_off m Hn Hf)
      as (k & polls & err & _ & _ & _ & _ & Hlo & _ & E).
    rewrite E. apply (Hlo Hlow).
  - intros cmd Hcmd.
    rewrite (wrigley_command_unknown EINVAL cmd m Hcmd). unfold result; cbn [fst]. split; [reflexivity | lia].
Qed.

(** ** The Off invariant *)

(** The state a successful [wrigley_probe] leaves.  The status is read off
    RESET-SENSE and the level of FLASH-STRAP; no line is driven. *)
Lemma wrigley_probe_ok (ENOMEM : Z) (pe : probe_env) (board : machine) :
  ENOMEM <> 0 ->
  result (wrigley_probe ENOMEM pe board) = 0 ->
  final (wrigley_probe ENOMEM pe board) =
    mk_machine
      (mk_info (flash_lvl board) false
         (if reset_in board (sampled board) =? 0 then WRIGLEY_STATUS_OFF
          else if flash_lvl board then WRIGLEY_STATUS_FLASH
               else WRIGLEY_STATUS_NORMAL)
         true)
      (disable_lvl board) (power_lvl board) (flash_lvl board)
      (reset_in board) (S (sampled board)).
Proof.
  intros HE.
  destruct pe as [kz e1 e2 e3 e4 e5 e6];
    destruct board as [[bf su st rd] d p f ri sa].
  unfold wrigley_probe, result, final.
  cbn [kzalloc_ok request_disable request_reset request_irq request_flash
       request_power register_rdev].
  destruct kz; cbn [negb]; [| cbn; lia].
  unfold err_dev_register, err_power, err_flash, err_reset, err_disable,
    gpio_request, radio_dev_register.
  run_action.
  destruct (Z.eqb_spec e1 0) as [-> | N1]; cbn -[Z.eqb]; [| intro; contradiction].
  destruct (Z.eqb_spec e2 0) as [-> | N2]; cbn -[Z.eqb]; [| intro; contradiction].
  destruct (Z.eqb_spec e3 0) as [-> | N3]; cbn -[Z.eqb]; [| intro; contradiction].
  destruct (Z.eqb_spec e4 0) as [-> | N4]; cbn -[Z.eqb]; [| intro; contradiction].
  destruct (Z.eqb_spec e5 0) as [-> | N5]; cbn -[Z.eqb]; [| intro; contradiction].
  destruct (Z.eqb_spec e6 0) as [-> | N6].
  - destruct f; destruct (ri sa =? 0); cbn; intros _; reflexivity.
  - pose proof N6 as B6. apply Z.eqb_neq in B6.
    destruct f; destruct (ri sa =? 0); cbn -[Z.eqb]; rewrite ?B6;
      cbn -[Z.eqb]; intro H; contradiction.
Qed.

(** A predicate on machines that every operation of the controller keeps is
    kept along every run.  The operations are given one by one. *)
Section Preservation.

Variable EINVAL : Z.
Variable size : nat.
Variable P : machine -> Prop.

Hypothesis keep_powerdown : forall m, P m -> P (final (wrigley_do_powerdown m)).
Hypothesis keep_powerup : forall m, P m -> P (final (wrigley_do_powerup m)).
Hypothesis keep_flash_mode :
  forall b m, P m -> P (final (wrigley_set_flash_mode b m)).
Hypothesis keep_suspend :
  forall m, P m -> P (final ((set_tcmd_suspended true ;; ret 0) m)).
Hypothesis keep_status_show :
  forall m, P m -> P (final (wrigley_status_show size m)).
Hypothesis keep_reset_isr : forall m, P m -> P (final (wrigley_reset_isr m)).
Hypothesis keep_reset_fn : forall m, P m -> P (final (wrigley_reset_fn m)).

Lemma keep_command (cmd : string) (m : machine) :
  P m -> P (final (wrigley_command EINVAL cmd m)).
Proof.
  intro H. unfold wrigley_command.
  destruct (strcmp cmd "shutdown" =? 0); [now apply keep_powerdown|].
  destruct (strcmp cmd "powerup" =? 0); [now apply keep_powerup|].
  destruct (strcmp cmd "bootmode_normal" =? 0); [now apply keep_flash_mode|].
  destruct (strcmp cmd "bootmode_flash" =? 0); [now apply keep_flash_mode|].
  destruct (strcmp cmd "suspend" =? 0); [now apply keep_suspend|].
  exact H.
Qed.

Lemma keep_step (m m' : machine) : P m -> step EINVAL size m m' -> P m'.
Proof.
  intros H Hs. destruct Hs.
  - now apply keep_command.
  - now apply keep_status_show.
  - now apply keep_reset_isr.
  - now apply keep_reset_fn.
  - rewrite wrigley_process_reboot_eq. now apply keep_powerdown.
  - unfold wrigley_shutdown, bind, ret.
    pose proof (keep_powerdown m H) as K.
    destruct (wrigley_do_powerdown m) as [[z m'] e]. exact K.
Qed.

Lemma keep_reaches (m0 m : machine) : P m0 -> reaches EINVAL size m0 m -> P m.
Proof.
  intros H Hr. induction Hr as [|m m' _ IH Hs].
  - exact H.
  - exact (keep_step m m' IH Hs).
Qed.

End Preservation.

(** Every operation keeps the Off invariant. *)
Lemma off_lines_low_reaches (EINVAL : Z) (size : nat) (m0 m : machine) :
  off_lines_low m0 -> reaches EINVAL size m0 m -> off_lines_low m.
Proof.
  apply keep_reaches; clear m0 m; intros until m; unfold off_lines_low.
  - destruct (N.eq_dec (status (info m)) WRIGLEY_STATUS_OFF) as [Hoff | Hon].
    + now rewrite (wrigley_do_powerdown_off m Hoff).
    + destruct (wrigley_do_powerdown_on m Hon) as (k & polls & _ & _ & _ & _ & E).
      rewrite E. intros _ _. split; reflexivity.
  - destruct (N.eq_dec (status (info m)) WRIGLEY_STATUS_NORMAL) as [Hn | Hn];
      [now rewrite (wrigley_do_powerup_on m (or_introl Hn))|].
    destruct (N.eq_dec (status (info m)) WRIGLEY_STATUS_FLASH) as [Hf | Hf];
      [now rewrite (wrigley_do_powerup_on m (or_intror Hf))|].
    destruct (wrigley_do_powerup_off m Hn Hf)
      as (k & polls & err & _ & _ & _ & _ & _ & Herr & E).
    rewrite E. intros _. unfold final; cbn [fst snd info status].
    destruct Herr as [-> | ->]; destruct (boot_flash (info m)); discriminate.
  - exact (fun H => H).
  - exact (fun H => H).
  - rewrite wrigley_status_show_eq.
    unfold final, with_status; cbn [fst snd info status power_lvl disable_lvl].
    intros H Hmin. apply H.
    destruct (N.le_gt_cases (status (info m)) WRIGLEY_STATUS_UNDEFINED) as [L | L].
    + now rewrite N.min_l in Hmin.
    + rewrite N.min_r in Hmin by (apply N.lt_le_incl, L). discriminate.
  - unfold wrigley_reset_isr. run_action.
    destruct (tcmd_suspended (info m)); [exact (fun H => H)|].
    intros _ H. discriminate H.
  - unfold wrigley_reset_fn. run_action.
    destruct (rdev_dev (info m)); cbn; intros H Hs; split;
      try reflexivity; apply (H Hs).
Qed.

(** Every operation keeps the status among the five enumerators. *)
Lemma status_defined_reaches (EINVAL : Z) (size : nat) (m0 m : machine) :
  status_defined m0 -> reaches EINVAL size m0 m -> status_defined m.
Proof.
  apply keep_reaches; clear m0 m; intros until m; unfold status_defined.
  - destruct (wrigley_do_powerdown_returns m) as [_ ->]. intros _. discriminate.
  - destruct (N.eq_dec (status (info m)) WRIGLEY_STATUS_NORMAL) as [Hn | Hn];
      [now rewrite (wrigley_do_powerup_on m (or_introl Hn))|].
    destruct (N.eq_dec (status (info m)) WRIGLEY_STATUS_FLASH) as [Hf | Hf];
      [now rewrite (wrigley_do_powerup_on m (or_intror Hf))|].
    destruct (wrigley_do_powerup_off m Hn Hf)
      as (k & polls & err & _ & _ & _ & _ & _ & Herr & E).
    rewrite E. intros _. unfold final; cbn [fst snd info status].
    destruct Herr as [-> | ->]; destruct (boot_flash (info m)); discriminate.
  - exact (fun H => H).
  - exact (fun H => H).
  - rewrite wrigley_status_show_eq. intros _.
    unfold final, with_status; cbn [fst snd info status]. apply N.le_min_r.
  - unfold wrigley_reset_isr. run_action.
    destruct (tcmd_suspended (info m)); [exact (fun H => H)|].
    intros _. discriminate.
  - unfold wrigley_reset_fn. run_action.
    destruct (rdev_dev (info m)); exact (fun H => H).
Qed.

(** The status of a reachable controller is one of the five enumerators, so
    that [wrigley_status_show] never has to clamp it. *)
Lemma reachable_status_defined (EINVAL ENOMEM : Z) (size : nat) (m : machine) :
  ENOMEM <> 0 -> reachable EINVAL ENOMEM size m -> status_defined m.
Proof.
  intros HE (pe & board & m0 & [H0 ->] & Hr).
  refine (status_defined_reaches EINVAL size _ m _ Hr).
  rewrite (wrigley_probe_ok ENOMEM pe board HE H0).
  unfold status_defined; cbn [info status].
  destruct (reset_in board (sampled board) =? 0); [discriminate|].
  destruct (flash_lvl board); discriminate.
Qed.

(** C7, as the code has it.  [wrigley_probe] reads the status off RESET-SENSE
    and drives no line.  When the board holds POWER and DISABLE low whenever
    RESET-SENSE reads low at attach, the state the attach leaves satisfies
    "status Off implies POWER low and DISABLE low", and so does every state
    reached from it by commands, status queries, reset interrupts, reboot
    notifications and shutdown calls: each operation keeps the invariant. *)
Theorem off_invariant_from_attach
    (EINVAL ENOMEM : Z) (size : nat) (pe : probe_env) (board m0 m : machine) :
  ENOMEM <> 0 ->
  attached ENOMEM pe board m0 ->
  (reset_in board (sampled board) = 0 ->
   power_lvl board = false /\ disable_lvl board = false) ->
  reaches EINVAL size m0 m ->
  off_lines_low m.
Proof.
  intros HE [H0 ->] Hboard Hr.
  refine (off_lines_low_reaches EINVAL size _ m _ Hr).
  rewrite (wrigley_probe_ok ENOMEM pe board HE H0).
  unfold off_lines_low; cbn [info status power_lvl disable_lvl].
  destruct (Z.eqb_spec (reset_in board (sampled board)) 0) as [E | E].
  - intros _. exact (Hboard E).
  - destruct (flash_lvl board); discriminate.
Qed.

(** ** Examples *)

(** C1 at work: a controller that is Off, set to boot in flash mode, with a
    modem that answers at the fourth read. *)
Lemma powerup_from_unpowered_witness :
  result (wrigley_do_powerup ctrl_off) = 0 /\
  status (info (final (wrigley_do_powerup ctrl_off))) = WRIGLEY_STATUS_FLASH.
Proof.
  assert (Hn : status (info ctrl_off) <> WRIGLEY_STATUS_NORMAL) by (vm_compute; discriminate).
  assert (Hf : status (info ctrl_off) <> WRIGLEY_STATUS_FLASH) by (vm_compute; discriminate).
  apply (proj1 (proj2 (proj2 (proj2 (proj2 (proj2 (proj2 (proj2
           (powerup_from_unpowered ctrl_off Hn Hf))))))))).
  exists 3%nat. split; [lia | vm_compute; discriminate].
Defined.

(** C4 at work: a second power up of a controller that is Normal. *)
Lemma powerup_when_already_on_witness :
  result (wrigley_do_powerup ctrl_normal) = -1 /\
  final (wrigley_do_powerup ctrl_normal) = ctrl_normal.
Proof.
  assert (H : status (info ctrl_normal) = WRIGLEY_STATUS_NORMAL \/
              status (info ctrl_normal) = WRIGLEY_STATUS_FLASH)
    by (left; reflexivity).
  destruct (powerup_when_already_on ctrl_normal H) as (Hr & Hm & _).
  exact (conj Hr Hm).
Defined.

(** C2 at work: powering down a Normal controller whose modem never lets
    RESET-SENSE go. *)
Lemma powerdown_ends_off_witness :
  power_lvl (final (wrigley_do_powerdown ctrl_normal)) = false /\
  disable_lvl (final (wrigley_do_powerdown ctrl_normal)) = false.
Proof.
  assert (H : status (info ctrl_normal) <> WRIGLEY_STATUS_OFF) by (vm_compute; discriminate).
  destruct (powerdown_ends_off ctrl_normal) as (_ & _ & Hp & Hd).
  split; [apply Hp; left; exact H | apply (Hd H)].
Defined.

(** C2 as stated fails on a controller attached to a board whose rails are up
    while the modem holds RESET-SENSE low: the attach calls it Off, and a
    power down then returns 0 with POWER still high. *)
Lemma powerdown_off_leaves_power_high :
  let m := final (wrigley_probe 12 probe_ok board_rails_up) in
  let r := wrigley_do_powerdown m in
  reachable 22 12 32 m /\
  result r = 0 /\
  status (info (final r)) = WRIGLEY_STATUS_OFF /\
  power_lvl (final r) = true /\
  ~ (result r = 0 /\ power_lvl (final r) = false /\
     status (info (final r)) = WRIGLEY_STATUS_OFF).
Proof.
  cbn zeta. split.
  - exists probe_ok, board_rails_up, (final (wrigley_probe 12 probe_ok board_rails_up)).
    split; [split; reflexivity | apply reaches_refl].
  - split; [reflexivity|]. split; [reflexivity|]. split; [reflexivity|].
    intros (_ & H & _). vm_compute in H. discriminate H.
Qed.

(** C5 at work: the power down of a controller that is Off. *)
Lemma powerdown_idempotent_witness :
  wrigley_do_powerdown ctrl_off = ((0, ctrl_off), [EvMutexLock; EvMutexUnlock]).
Proof.
  apply (proj1 (powerdown_idempotent ctrl_off)). reflexivity.
Defined.

(** C3 at work: a reset edge on a suspended controller, and on one that is
    not. *)
Lemma reset_isr_suspend_filter_witness :
  reset_irq ctrl_suspended = ((IRQ_HANDLED, ctrl_suspended), []) /\
  status (info (final (reset_irq ctrl_normal))) = WRIGLEY_STATUS_RESETTING.
Proof.
  split.
  - apply (proj1 (reset_isr_suspend_filter ctrl_suspended)). reflexivity.
  - apply (proj2 (reset_isr_suspend_filter ctrl_normal)). reflexivity.
Defined.

(** C6 at work: a known command, and a text that is none. *)
Lemma command_dispatch_witness :
  wrigley_command 22 "shutdown" ctrl_normal = wrigley_do_powerdown ctrl_normal /\
  wrigley_command 22 "reboot" ctrl_normal = ((-22, ctrl_normal), []).
Proof.
  split.
  - apply (proj1 (command_dispatch 22 "shutdown" ctrl_normal)). reflexivity.
  - apply (proj2 (proj2 (proj2 (proj2 (proj2
             (command_dispatch 22 "reboot" ctrl_normal)))))).
    unfold known_command. vm_compute.
    intros [H | [H | [H | [H | H]]]]; discriminate H.
Defined.

(** C8 at work: the text of a controller that is Off, in a buffer of 32. *)
Lemma status_show_clamps_witness :
  fst (result (wrigley_status_show 32 ctrl_off)) = String.append "off" newline /\
  final (wrigley_status_show 32 ctrl_off) = ctrl_off.
Proof.
  assert (H : (11 <= 32)%nat) by lia.
  destruct (status_show_clamps 32 ctrl_off H) as (Ht & _ & _ & _ & Hm & _).
  split; [exact Ht | apply Hm; vm_compute; discriminate].
Defined.

(** C8 as stated fails on a structure whose status is out of range: the query
    stores Undefined in it. *)
Lemma status_show_overwrites_stray_status :
  let r := wrigley_status_show 32 ctrl_stray in
  status (info ctrl_stray) = 5%N /\
  status (info (final r)) = WRIGLEY_STATUS_UNDEFINED /\
  ~ (status (info (final r)) = status (info ctrl_stray)).
Proof.
  cbn zeta. split; [reflexivity|]. split; [reflexivity|].
  vm_compute. discriminate.
Qed.

(** C10 at work, with the kernel's [EINVAL]. *)
Lemma powerup_errors_share_code_witness :
  result (wrigley_do_powerup ctrl_normal) = -1 /\
  result (wrigley_command 22 "reboot" ctrl_normal) <> -1.
Proof.
  assert (HE : 22 <> 1) by lia.
  destruct (powerup_errors_share_code 22 ctrl_normal HE) as (_ & Hon & _ & _ & Hunk).
  split.
  - apply Hon. left; reflexivity.
  - apply Hunk. unfold known_command. vm_compute.
    intros [H | [H | [H | [H | H]]]]; discriminate H.
Defined.

(** C7 at work: a controller attached to a cold board, then told to power up
    and to shut down. *)
Lemma off_invariant_from_attach_witness :
  off_lines_low
    (final (wrigley_command 22 "shutdown"
       (final (wrigley_command 22 "powerup"
          (final (wrigley_probe 12 probe_ok board_cold)))))).
Proof.
  assert (HE : 12 <> 0) by lia.
  apply (off_invariant_from_attach 22 12 32 probe_ok board_cold
           (final (wrigley_probe 12 probe_ok board_cold))).
  - exact HE.
  - split; reflexivity.
  - intros _. split; reflexivity.
  - eapply reaches_step; [eapply reaches_step; [apply reaches_refl|]|];
      apply step_command.
Defined.

(** C7 as stated fails at the attach itself: on a board whose rails are up
    while the modem holds RESET-SENSE low, the attached controller is Off with
    POWER and DISABLE high. *)
Lemma attach_off_with_rails_up :
  let m := final (wrigley_probe 12 probe_ok board_rails_up) in
  reachable 22 12 32 m /\
  status (info m) = WRIGLEY_STATUS_OFF /\
  power_lvl m = true /\
  disable_lvl m = true /\
  ~ off_lines_low m.
Proof.
  cbn zeta. split.
  - exists probe_ok, board_rails_up, (final (wrigley_probe 12 probe_ok board_rails_up)).
    split; [split; reflexivity | apply reaches_refl].
  - split; [reflexivity|]. split; [reflexivity|]. split; [reflexivity|].
    intro H. destruct (H eq_refl) as [Hp _]. vm_compute in Hp. discriminate Hp.
Qed.

(** * Further properties of the driver *)

(** ** The verification loops, sample by sample *)

Lemma all_low_S (k : nat) (m : machine) :
  reset_in m (sampled m) = 0 -> all_low k (advance 1 m) -> all_low (S k) m.
Proof.
  intros H0 H [|i] Hi.
  - exact H0.
  - rewrite <- sample_advance_1. apply H. lia.
Qed.

Lemma all_high_S (k : nat) (m : machine) :
  reset_in m (sampled m) <> 0 -> all_high k (advance 1 m) -> all_high (S k) m.
Proof.
  intros H0 H [|i] Hi.
  - exact H0.
  - rewrite <- sample_advance_1. apply H. lia.
Qed.

(** The power-up loop reads up to the first high sample and no further, and
    sleeps once after every low sample. *)
Lemma powerup_poll_stops (n : nat) (err : Z) (m : machine) :
  exists k : nat,
    final (powerup_poll n err m) = advance k m /\
    count is_reset_read (events (powerup_poll n err m)) = k /\
    ((result (powerup_poll n err m) = 0 /\ (1 <= k <= n)%nat /\
      all_low (k - 1) m /\ reset_in m ((k - 1) + sampled m) <> 0 /\
      slept (events (powerup_poll n err m)) = 400 * Z.of_nat (k - 1)) \/
     (result (powerup_poll n err m) = err /\ k = n /\
      all_low n m /\ slept (events (powerup_poll n err m)) = 400 * Z.of_nat n)).
Proof.
  revert m; induction n as [|n IH]; intro m.
  - exists 0%nat. cbn. rewrite advance_0.
    split; [reflexivity|]. split; [reflexivity|]. right.
    repeat split. intros i Hi; lia.
  - rewrite powerup_poll_S. cbn zeta.
    destruct (Z.eqb_spec (reset_in m (sampled m)) 0) as [E | E]; cbn [negb].
    + destruct (IH (advance 1 m)) as (k & Hf & Hc & Hcase).
      exists (S k). unfold final, result, events in *; cbn [fst snd].
      split; [now rewrite Hf, advance_S|].
      split; [unfold count in *; cbn; now rewrite Hc|].
      destruct Hcase as [(Hr & Hk & Hl & Hh & Hs) | (Hr & Hk & Hl & Hs)].
      * left.
        split; [exact Hr|]. split; [lia|].
        replace (S k - 1)%nat with (S (k - 1)) by lia.
        split; [now apply all_low_S|].
        split.
        -- rewrite <- sample_advance_1. exact Hh.
        -- cbn [slept]. rewrite Hs. lia.
      * right.
        split; [exact Hr|]. split; [now f_equal|].
        split; [now apply all_low_S|].
        cbn [slept]. rewrite Hs. lia.
    + exists 1%nat. unfold final, result, events; cbn [fst snd].
      split; [reflexivity|]. split; [reflexivity|]. left.
      split; [reflexivity|]. split; [lia|].
      split; [intros i Hi; lia|]. split; [exact E | reflexivity].
Qed.

(** The power-down loop reads up to the first low sample and no further, and
    sleeps once after every high sample. *)
Lemma powerdown_poll_stops (n : nat) (m : machine) :
  exists k : nat,
    final (powerdown_poll n m) = advance k m /\
    count is_reset_read (events (powerdown_poll n m)) = k /\
    (((1 <= k <= n)%nat /\
      all_high (k - 1) m /\ reset_in m ((k - 1) + sampled m) = 0 /\
      slept (events (powerdown_poll n m)) = 400 * Z.of_nat (k - 1)) \/
     (k = n /\ all_high n m /\
      slept (events (powerdown_poll n m)) = 400 * Z.of_nat n)).
Proof.
  revert m; induction n as [|n IH]; intro m.
  - exists 0%nat. cbn. rewrite advance_0.
    split; [reflexivity|]. split; [reflexivity|]. right.
    repeat split. intros i Hi; lia.
  - rewrite powerdown_poll_S. cbn zeta.
    destruct (Z.eqb_spec (reset_in m (sampled m)) 0) as [E | E].
    + exists 1%nat. unfold final, result, events; cbn [fst snd].
      split; [reflexivity|]. split; [reflexivity|]. left.
      split; [lia|].
      split; [intros i Hi; lia|]. split; [exact E | reflexivity].
    + destruct (IH (advance 1 m)) as (k & Hf & Hc & Hcase).
      exists (S k). unfold final, result, events in *; cbn [fst snd].
      split; [now rewrite Hf, advance_S|].
      split; [unfold count in *; cbn; now rewrite Hc|].
      destruct Hcase as [(Hk & Hl & Hh & Hs) | (Hk & Hl & Hs)].
      * left.
        split; [lia|].
        replace (S k - 1)%nat with (S (k - 1)) by lia.
        split; [now apply all_high_S|].
        split.
        -- rewrite <- sample_advance_1. exact Hh.
        -- cbn [slept]. rewrite Hs. lia.
      * right.
        split; [now f_equal|].
        split; [now apply all_high_S|].
        cbn [slept]. rewrite Hs. lia.
Qed.

(** [wrigley_do_powerup] on a controller that is not up, written with its
    loop. *)
Lemma wrigley_do_powerup_eq (m : machine) :
  status (info m) <> WRIGLEY_STATUS_NORMAL ->
  status (info m) <> WRIGLEY_STATUS_FLASH ->
  let m1 := mk_machine (info m) true true (boot_flash (info m))
              (reset_in m) (sampled m) in
  let r := powerup_poll 10 (-1) m1 in
  wrigley_do_powerup m =
    ((result r,
      with_status
        (if result r =? 0
         then (if boot_flash (info m)
               then WRIGLEY_STATUS_FLASH else WRIGLEY_STATUS_NORMAL)
         else WRIGLEY_STATUS_UNDEFINED)
        (final r)),
     EvMutexLock :: EvGpioOut flash_gpio (boot_flash (info m)) ::
       EvGpioOut disable_gpio true :: EvGpioOut power_gpio true ::
       events r ++ [EvMutexUnlock]).
Proof.
  intros Hn Hf. apply N.eqb_neq in Hn, Hf.
  destruct m as [[bf su st rd] d p f ri sa]; cbn [info status boot_flash] in *.
  cbn zeta.
  set (m1 := mk_machine (mk_info bf su st rd) true true bf ri sa).
  destruct (powerup_poll_spec 10 (-1) m1) as (k & _ & _ & Hfin & _).
  pose proof (powerup_poll_result 10 m1) as Hres.
  unfold wrigley_do_powerup. run_action. rewrite Hn, Hf. cbn [orb].
  destruct bf; cbn -[powerup_poll Z.eqb]; fold m1;
    destruct (powerup_poll 10 (-1) m1) as [[err m2] e];
    unfold final, events, result in *; cbn [fst snd] in *; subst m2;
    destruct Hres as [-> | ->]; reflexivity.
Qed.

(** [wrigley_do_powerdown] on a controller that is not Off, written with its
    loop. *)
Lemma wrigley_do_powerdown_eq (m : machine) :
  status (info m) <> WRIGLEY_STATUS_OFF ->
  let m1 := mk_machine (info m) false (power_lvl m) (flash_lvl m)
              (reset_in m) (sampled m) in
  let r := powerdown_poll 10 m1 in
  wrigley_do_powerdown m =
    ((0, mk_machine
           (mk_info (boot_flash (info m)) (tcmd_suspended (info m))
              WRIGLEY_STATUS_OFF (rdev_dev (info m)))
           false false (flash_lvl m) (reset_in m) (sampled (final r))),
     EvMutexLock :: EvGpioOut disable_gpio false ::
       events r ++ [EvGpioOut power_gpio false; EvMutexUnlock]).
Proof.
  intro H. apply N.eqb_neq in H. cbn zeta.
  unfold wrigley_do_powerdown. run_action. rewrite H.
  set (m1 := mk_machine (info m) false (power_lvl m) (flash_lvl m)
               (reset_in m) (sampled m)).
  destruct (powerdown_poll_spec 10 m1) as (k & _ & _ & Hf & _).
  destruct (powerdown_poll 10 m1) as [[u m2] e].
  unfold final, events in *; cbn [fst snd] in *. subst m2. reflexivity.
Qed.

Lemma slept_app (l1 l2 : list event) : slept (l1 ++ l2) = slept l1 + slept l2.
Proof.
  induction l1 as [|e l1 IH]; [reflexivity|].
  destruct e; cbn [app slept]; rewrite IH; lia.
Qed.

(** A verification loop never releases the lock. *)
Lemma polls_no_unlock (polls : list event) :
  forallb is_poll polls = true -> count is_unlock polls = 0%nat.
Proof.
  induction polls as [|e polls IH]; cbn [forallb]; intro H; [reflexivity|].
  apply andb_true_iff in H. destruct H as [He Hp].
  destruct e; try discriminate He; unfold count in *; cbn; auto.
Qed.

(** ** Where the verification loops stop *)

(** X1.  A power up that is not refused reads RESET-SENSE up to the first
    high sample and no further: on success the samples before the last read
    were all low, the last one high, and it slept 400 ms after each low
    sample; on failure it read ten low samples and slept ten times, 4000 ms
    in all. *)
Theorem powerup_stops_at_first_high (m : machine) :
  status (info m) <> WRIGLEY_STATUS_NORMAL ->
  status (info m) <> WRIGLEY_STATUS_FLASH ->
  let r := wrigley_do_powerup m in
  let k := count is_reset_read (events r) in
  sampled (final r) = (k + sampled m)%nat /\
  ((result r = 0 /\ (1 <= k <= 10)%nat /\
    all_low (k - 1) m /\ reset_in m ((k - 1) + sampled m) <> 0 /\
    slept (events r) = 400 * Z.of_nat (k - 1)) \/
   (result r = -1 /\ k = 10%nat /\ all_low 10 m /\ slept (events r) = 4000)).
Proof.
  intros Hn Hf. cbn zeta.
  rewrite (wrigley_do_powerup_eq m Hn Hf). cbn zeta.
  set (m1 := mk_machine (info m) true true (boot_flash (info m))
               (reset_in m) (sampled m)).
  destruct (powerup_poll_stops 10 (-1) m1) as (k & Hfin & Hc & Hcase).
  unfold result, final, events in *; cbn [fst snd].
  assert (Ec : count is_reset_read
                 (EvMutexLock :: EvGpioOut flash_gpio (boot_flash (info m)) ::
                  EvGpioOut disable_gpio true :: EvGpioOut power_gpio true ::
                  snd (powerup_poll 10 (-1) m1) ++ [EvMutexUnlock]) = k).
  { change (count is_reset_read
              (snd (powerup_poll 10 (-1) m1) ++ [EvMutexUnlock]) = k).
    rewrite count_app, Hc. cbn. lia. }
  assert (Es : slept
                 (EvMutexLock :: EvGpioOut flash_gpio (boot_flash (info m)) ::
                  EvGpioOut disable_gpio true :: EvGpioOut power_gpio true ::
                  snd (powerup_poll 10 (-1) m1) ++ [EvMutexUnlock]) =
               slept (snd (powerup_poll 10 (-1) m1))).
  { cbn [slept]. rewrite slept_app. cbn. lia. }
  rewrite Ec, Es, Hfin. split; [reflexivity|].
  destruct Hcase as [(Hr & Hk & Hl & Hh & Hs) | (Hr & Hk & Hl & Hs)].
  - left. exact (conj Hr (conj Hk (conj Hl (conj Hh Hs)))).
  - right. exact (conj Hr (conj Hk (conj Hl Hs))).
Qed.

(** X2.  A power down of a controller that is not Off reads RESET-SENSE up to
    the first low sample and no further, sleeping 400 ms after each high
    sample; when the line never goes low it reads ten high samples and sleeps
    ten times, 4000 ms in all, before it cuts POWER. *)
Theorem powerdown_stops_at_first_low (m : machine) :
  status (info m) <> WRIGLEY_STATUS_OFF ->
  let r := wrigley_do_powerdown m in
  let k := count is_reset_read (events r) in
  sampled (final r) = (k + sampled m)%nat /\
  (((1 <= k <= 10)%nat /\
    all_high (k - 1) m /\ reset_in m ((k - 1) + sampled m) = 0 /\
    slept (events r) = 400 * Z.of_nat (k - 1)) \/
   (k = 10%nat /\ all_high 10 m /\ slept (events r) = 4000)).
Proof.
  intros Hon. cbn zeta.
  rewrite (wrigley_do_powerdown_eq m Hon). cbn zeta.
  set (m1 := mk_machine (info m) false (power_lvl m) (flash_lvl m)
               (reset_in m) (sampled m)).
  destruct (powerdown_poll_stops 10 m1) as (k & Hfin & Hc & Hcase).
  unfold result, final, events in *; cbn [fst snd sampled].
  assert (Ec : count is_reset_read
                 (EvMutexLock :: EvGpioOut disable_gpio false ::
                  snd (powerdown_poll 10 m1) ++
                  [EvGpioOut power_gpio false; EvMutexUnlock]) = k).
  { change (count is_reset_read
              (snd (powerdown_poll 10 m1) ++
               [EvGpioOut power_gpio false; EvMutexUnlock]) = k).
    rewrite count_app, Hc. cbn. lia. }
  assert (Es : slept
                 (EvMutexLock :: EvGpioOut disable_gpio false ::
                  snd (powerdown_poll 10 m1) ++
                  [EvGpioOut power_gpio false; EvMutexUnlock]) =
               slept (snd (powerdown_poll 10 m1))).
  { cbn [slept]. rewrite slept_app. cbn. lia. }
  rewrite Ec, Es, Hfin. split; [reflexivity|].
  destruct Hcase as [(Hk & Hl & Hh & Hs) | (Hk & Hl & Hs)].
  - left. exact (conj Hk (conj Hl (conj Hh Hs))).
  - right. exact (conj Hk (conj Hl Hs)).
Qed.

(** ** The power lock *)

(** X3.  Whatever the command and the state, [wrigley_command] either calls
    nothing at all (the mode commands and the refusal) or runs one critical
    section: the first call takes the power lock, the last releases it, and
    nothing in between touches the lock, the early returns included.  The
    two halves of the reset interrupt never take the lock. *)
Theorem command_lock_discipline (EINVAL : Z) (cmd : string) (m : machine) :
  (events (wrigley_command EINVAL cmd m) = [] \/
   exists body : list event,
     events (wrigley_command EINVAL cmd m) =
       EvMutexLock :: body ++ [EvMutexUnlock] /\
     count is_lock body = 0%nat /\ count is_unlock body = 0%nat) /\
  count is_lock (events (reset_irq m)) = 0%nat /\
  count is_lock (events (wrigley_reset_fn m)) = 0%nat.
Proof.
  split; [|split].
  - unfold wrigley_command.
    destruct (strcmp cmd "shutdown" =? 0).
    { right.
      destruct (N.eq_dec (status (info m)) WRIGLEY_STATUS_OFF) as [Hoff | Hon].
      - rewrite (wrigley_do_powerdown_off m Hoff). exists []. repeat split.
      - destruct (wrigley_do_powerdown_on m Hon) as (k & polls & _ & Hp & _ & _ & E).
        rewrite E. exists (EvGpioOut disable_gpio false :: polls ++ [EvGpioOut power_gpio false]).
        destruct (polls_are_quiet polls Hp) as (H1 & _ & _).
        pose proof (polls_no_unlock polls Hp) as H2.
        unfold events; cbn [snd]. split.
        + cbn [app]. now rewrite <- app_assoc.
        + change (EvGpioOut disable_gpio false :: polls ++ [EvGpioOut power_gpio false])
            with ([EvGpioOut disable_gpio false] ++ polls ++ [EvGpioOut power_gpio false]).
          rewrite !count_app, H1, H2. split; reflexivity. }
    destruct (strcmp cmd "powerup" =? 0).
    { right.
      destruct (N.eq_dec (status (info m)) WRIGLEY_STATUS_NORMAL) as [Hn | Hn];
        [rewrite (wrigley_do_powerup_on m (or_introl Hn)); exists []; repeat split|].
      destruct (N.eq_dec (status (info m)) WRIGLEY_STATUS_FLASH) as [Hf | Hf];
        [rewrite (wrigley_do_powerup_on m (or_intror Hf)); exists []; repeat split|].
      destruct (wrigley_do_powerup_off m Hn Hf)
        as (k & polls & err & _ & Hp & _ & _ & _ & _ & E).
      rewrite E.
      exists (EvGpioOut flash_gpio (boot_flash (info m)) ::
              EvGpioOut disable_gpio true :: EvGpioOut power_gpio true :: polls).
      destruct (polls_are_quiet polls Hp) as (H1 & _ & _).
      pose proof (polls_no_unlock polls Hp) as H2.
      unfold events; cbn [snd]. split; [reflexivity|].
      change (EvGpioOut flash_gpio (boot_flash (info m)) ::
              EvGpioOut disable_gpio true :: EvGpioOut power_gpio true :: polls)
        with ([EvGpioOut flash_gpio (boot_flash (info m));
               EvGpioOut disable_gpio true; EvGpioOut power_gpio true] ++ polls).
      rewrite !count_app, H1, H2. split; reflexivity. }
    destruct (strcmp cmd "bootmode_normal" =? 0); [left; reflexivity|].
    destruct (strcmp cmd "bootmode_flash" =? 0); [left; reflexivity|].
    destruct (strcmp cmd "suspend" =? 0); left; reflexivity.
  - unfold reset_irq, wrigley_reset_isr, wrigley_reset_fn. run_action.
    destruct (tcmd_suspended (info m)); [reflexivity|].
    cbn. destruct (rdev_dev (info m)); reflexivity.
  - unfold wrigley_reset_fn. run_action.
    destruct (rdev_dev (info m)); reflexivity.
Qed.

(** ** Suspend *)

(** Every operation keeps a set suspend flag. *)
Lemma tcmd_suspended_reaches (EINVAL : Z) (size : nat) (m0 m : machine) :
  tcmd_suspended (info m0) = true -> reaches EINVAL size m0 m ->
  tcmd_suspended (info m) = true.
Proof.
  apply (keep_reaches EINVAL size (fun m => tcmd_suspended (info m) = true));
    clear m0 m; intros until m.
  - destruct (N.eq_dec (status (info m)) WRIGLEY_STATUS_OFF) as [Hoff | Hon].
    + now rewrite (wrigley_do_powerdown_off m Hoff).
    + destruct (wrigley_do_powerdown_on m Hon) as (k & polls & _ & _ & _ & _ & E).
      rewrite E. exact (fun H => H).
  - destruct (N.eq_dec (status (info m)) WRIGLEY_STATUS_NORMAL) as [Hn | Hn];
      [now rewrite (wrigley_do_powerup_on m (or_introl Hn))|].
    destruct (N.eq_dec (status (info m)) WRIGLEY_STATUS_FLASH) as [Hf | Hf];
      [now rewrite (wrigley_do_powerup_on m (or_intror Hf))|].
    destruct (wrigley_do_powerup_off m Hn Hf)
      as (k & polls & err & _ & _ & _ & _ & _ & _ & E).
    rewrite E. exact (fun H => H).
  - exact (fun H => H).
  - reflexivity.
  - rewrite wrigley_status_show_eq. exact (fun H => H).
  - unfold wrigley_reset_isr. run_action. intro H. rewrite H. exact H.
  - unfold wrigley_reset_fn. run_action.
    destruct (rdev_dev (info m)); exact (fun H => H).
Qed.

(** X4.  Suspend is for good: after the command "suspend" no command, status
    query, reset interrupt, reboot notification or shutdown call clears the
    flag, so in every later state a reset interrupt is acknowledged and
    changes nothing. *)
Theorem suspend_is_sticky (EINVAL : Z) (size : nat) (m m' : machine) :
  reaches EINVAL size (final (wrigley_command EINVAL "suspend" m)) m' ->
  tcmd_suspended (info m') = true /\
  reset_irq m' = ((IRQ_HANDLED, m'), []).
Proof.
  intro Hr.
  assert (Hs : tcmd_suspended (info m') = true).
  { refine (tcmd_suspended_reaches EINVAL size _ m' _ Hr). reflexivity. }
  split; [exact Hs|].
  unfold reset_irq, wrigley_reset_isr. run_action. rewrite Hs. reflexivity.
Qed.

(** ** Status queries on a live controller *)

(** X5.  In every state the controller reaches after a successful attach the
    status is one of the five enumerators, so that a status query changes
    nothing there: the clamp of [wrigley_status_show] never fires. *)
Theorem reachable_status_read_only
    (EINVAL ENOMEM : Z) (size size' : nat) (m : machine) :
  ENOMEM <> 0 ->
  reachable EINVAL ENOMEM size m ->
  (status (info m) <= WRIGLEY_STATUS_UNDEFINED)%N /\
  final (wrigley_status_show size' m) = m /\
  events (wrigley_status_show size' m) = [].
Proof.
  intros HE Hr.
  pose proof (reachable_status_defined EINVAL ENOMEM size m HE Hr) as Hd.
  unfold status_defined in Hd.
  rewrite wrigley_status_show_eq. unfold final, events; cbn [fst snd].
  rewrite N.min_l by exact Hd. rewrite with_status_same. auto.
Qed.

(** ** Sequences of power operations *)

(** A power down leaves the boot mode as it was, and the status Off. *)
Lemma wrigley_do_powerdown_boot_flash (m : machine) :
  boot_flash (info (final (wrigley_do_powerdown m))) = boot_flash (info m).
Proof.
  destruct (N.eq_dec (status (info m)) WRIGLEY_STATUS_OFF) as [Hoff | Hon].
  - now rewrite (wrigley_do_powerdown_off m Hoff).
  - destruct (wrigley_do_powerdown_on m Hon) as (k & polls & _ & _ & _ & _ & E).
    now rewrite E.
Qed.

(** What a power up that is not refused leaves, by the samples at hand. *)
Lemma wrigley_do_powerup_outcome (m : machine) :
  status (info m) <> WRIGLEY_STATUS_NORMAL ->
  status (info m) <> WRIGLEY_STATUS_FLASH ->
  (some_high 10 m ->
   result (wrigley_do_powerup m) = 0 /\
   status (info (final (wrigley_do_powerup m))) =
     (if boot_flash (info m) then WRIGLEY_STATUS_FLASH else WRIGLEY_STATUS_NORMAL) /\
   flash_lvl (final (wrigley_do_powerup m)) = boot_flash (info m)) /\
  (all_low 10 m ->
   result (wrigley_do_powerup m) = -1 /\
   status (info (final (wrigley_do_powerup m))) = WRIGLEY_STATUS_UNDEFINED).
Proof.
  intros Hn Hf.
  destruct (wrigley_do_powerup_off m Hn Hf)
    as (k & polls & err & _ & _ & _ & Hhi & Hlo & _ & E).
  rewrite E. unfold result, final; cbn [fst snd info status flash_lvl].
  split; intro H.
  - rewrite (Hhi H). repeat split.
  - destruct (Hlo H) as [-> _]. split; reflexivity.
Qed.

(** X6.  After a power down a power up is never refused: whatever the state
    before, the power up drives POWER and DISABLE high and FLASH-STRAP to the
    boot mode, and its outcome is decided by the modem alone, success with
    the status of the boot mode when one of the next ten samples is high, -1
    and Undefined when all are low. *)
Theorem powerup_after_powerdown (m : machine) :
  let m1 := final (wrigley_do_powerdown m) in
  let r := wrigley_do_powerup m1 in
  power_lvl (final r) = true /\
  disable_lvl (final r) = true /\
  flash_lvl (final r) = boot_flash (info m) /\
  (some_high 10 m1 ->
   result r = 0 /\
   status (info (final r)) =
     (if boot_flash (info m) then WRIGLEY_STATUS_FLASH else WRIGLEY_STATUS_NORMAL)) /\
  (all_low 10 m1 ->
   result r = -1 /\ status (info (final r)) = WRIGLEY_STATUS_UNDEFINED).
Proof.
  cbn zeta.
  destruct (wrigley_do_powerdown_returns m) as [_ Hs].
  pose proof (wrigley_do_powerdown_boot_flash m) as Hb.
  set (m1 := final (wrigley_do_powerdown m)) in *.
  assert (Hn : status (info m1) <> WRIGLEY_STATUS_NORMAL) by (rewrite Hs; discriminate).
  assert (Hf : status (info m1) <> WRIGLEY_STATUS_FLASH) by (rewrite Hs; discriminate).
  destruct (wrigley_do_powerup_outcome m1 Hn Hf) as [Hhi Hlo].
  rewrite Hb in Hhi.
  destruct (wrigley_do_powerup_off m1 Hn Hf)
    as (k & polls & err & _ & _ & _ & _ & _ & _ & E).
  refine (conj _ (conj _ (conj _ (conj _ Hlo)))).
  - now rewrite E.
  - now rewrite E.
  - now rewrite E, Hb.
  - intro H. destruct (Hhi H) as (H1 & H2 & _). auto.
Qed.

(** X7.  Two power ups in a row, the first one not refused.  If the first
    succeeded, the second is refused with -1 and changes nothing.  If the
    first failed the status is Undefined and the second is a full retry, which
    succeeds when one of its own ten samples is high. *)
Theorem powerup_twice (m : machine) :
  status (info m) <> WRIGLEY_STATUS_NORMAL ->
  status (info m) <> WRIGLEY_STATUS_FLASH ->
  let r1 := wrigley_do_powerup m in
  let r2 := wrigley_do_powerup (final r1) in
  (result r1 = 0 \/ result r1 = -1) /\
  (result r1 = 0 ->
   r2 = ((-1, final r1), [EvMutexLock; EvMutexUnlock])) /\
  (result r1 = -1 ->
   status (info (final r1)) = WRIGLEY_STATUS_UNDEFINED /\
   (some_high 10 (final r1) ->
    result r2 = 0 /\
    status (info (final r2)) =
      (if boot_flash (info m) then WRIGLEY_STATUS_FLASH else WRIGLEY_STATUS_NORMAL)) /\
   (all_low 10 (final r1) -> result r2 = -1)).
Proof.
  intros Hn Hf. cbn zeta.
  destruct (wrigley_do_powerup_off m Hn Hf)
    as (k & polls & err & _ & _ & _ & _ & _ & Herr & E).
  set (r1 := wrigley_do_powerup m) in *.
  assert (Hb : boot_flash (info (final r1)) = boot_flash (info m)) by now rewrite E.
  assert (Hst : status (info (final r1)) =
                if err =? 0
                then (if boot_flash (info m)
                      then WRIGLEY_STATUS_FLASH else WRIGLEY_STATUS_NORMAL)
                else WRIGLEY_STATUS_UNDEFINED) by now rewrite E.
  assert (Hres : result r1 = err) by now rewrite E.
  rewrite Hres. split; [exact Herr|]. split; intros ->.
  - apply wrigley_do_powerup_on. rewrite Hst. cbn [Z.eqb].
    destruct (boot_flash (info m)); [right | left]; reflexivity.
  - change (status (info (final r1)) = WRIGLEY_STATUS_UNDEFINED) in Hst.
    split; [exact Hst|].
    assert (Hn' : status (info (final r1)) <> WRIGLEY_STATUS_NORMAL)
      by (rewrite Hst; discriminate).
    assert (Hf' : status (info (final r1)) <> WRIGLEY_STATUS_FLASH)
      by (rewrite Hst; discriminate).
    destruct (wrigley_do_powerup_outcome (final r1) Hn' Hf') as [Hhi Hlo].
    rewrite Hb in Hhi. split.
    + intro H. destruct (Hhi H) as (H1 & H2 & _). auto.
    + intro H. apply (Hlo H).
Qed.


(** ** The reset interrupt, both halves *)

(** X9.  A reset interrupt on a controller that is not suspended sets the
    status to Resetting and drives POWER low, and nothing else: DISABLE and
    FLASH-STRAP keep their level, the flags stay, RESET-SENSE is not read.
    After the line is driven, one change notification without environment is
    sent if the radio device is registered.  A second interrupt leaves the
    same machine again. *)
Theorem reset_irq_unsuspended (m : machine) :
  tcmd_suspended (info m) = false ->
  reset_irq m =
    ((IRQ_HANDLED,
      mk_machine
        (mk_info (boot_flash (info m)) false WRIGLEY_STATUS_RESETTING
           (rdev_dev (info m)))
        (disable_lvl m) false (flash_lvl m) (reset_in m) (sampled m)),
     EvGpioOut power_gpio false ::
       (if rdev_dev (info m) then [EvUevent []] else [])) /\
  final (reset_irq (final (reset_irq m))) = final (reset_irq m).
Proof.
  destruct m as [[bf su st rd] d p f ri sa]. cbn [info tcmd_suspended].
  intros ->. split; destruct rd; reflexivity.
Qed.

(** ** Device attach: errors and rollback *)

Ltac probe_open pe m :=
  destruct pe as [kz e1 e2 e3 e4 e5 e6];
  destruct m as [[bf su st rd] d p f ri sa];
  unfold wrigley_probe, probe_first_error, probe_succeeds, result, final, events;
  cbn [kzalloc_ok request_disable request_reset request_irq request_flash
       request_power register_rdev];
  unfold err_dev_register, err_power, err_flash, err_reset, err_disable,
    gpio_request, radio_dev_register.

Ltac probe_case e :=
  let N := fresh "N" in
  let B := fresh "B" in
  destruct (Z.eqb_spec e 0) as [-> | N];
  [ | pose proof N as B; apply Z.eqb_neq in B ];
  cbn -[Z.eqb].

(** X10.  [wrigley_probe] returns the error of the first request that fails,
    in the order allocation, DISABLE, RESET-SENSE, interrupt, FLASH-STRAP,
    POWER, radio device, and 0 when none fails; with a non-zero [ENOMEM] it
    returns 0 exactly when every request was granted. *)
Theorem probe_returns_first_error (ENOMEM : Z) (pe : probe_env) (m : machine) :
  result (wrigley_probe ENOMEM pe m) = probe_first_error ENOMEM pe /\
  (ENOMEM <> 0 ->
   (result (wrigley_probe ENOMEM pe m) = 0 <-> probe_succeeds pe = true)).
Proof.
  probe_open pe m.
  destruct kz; cbn [negb andb];
    [| split; [reflexivity | intro HE; split; [cbn; lia | discriminate]]].
  run_action.
  probe_case e1; [| rewrite ?B; split; [reflexivity | intros _; split; [contradiction | discriminate]]].
  probe_case e2; [| rewrite ?B; split; [reflexivity | intros _; split; [contradiction | discriminate]]].
  probe_case e3; [| rewrite ?B; split; [reflexivity | intros _; split; [contradiction | discriminate]]].
  probe_case e4; [| rewrite ?B; split; [reflexivity | intros _; split; [contradiction | discriminate]]].
  probe_case e5; [| rewrite ?B; split; [reflexivity | intros _; split; [contradiction | discriminate]]].
  probe_case e6.
  - destruct f; destruct (ri sa =? 0); cbn; split; try reflexivity;
      intros _; split; reflexivity.
  - destruct f; destruct (ri sa =? 0); cbn -[Z.eqb]; rewrite ?B; cbn -[Z.eqb];
      (split; [reflexivity | intros _; split; [contradiction | discriminate]]).
Qed.

(** X11.  [wrigley_probe] gives back what it took.  When it fails, every line
    whose [gpio_request] was granted has been freed exactly once and no other
    line has been freed, the interrupt has been freed exactly when it was
    granted, and the structure has been freed when it had been allocated.
    When every request is granted, the four lines and the interrupt are held
    and nothing has been freed. *)
Theorem probe_rollback_balanced
    (ENOMEM : Z) (pe : probe_env) (m : machine) (l : gpio) :
  let ev := events (wrigley_probe ENOMEM pe m) in
  (probe_succeeds pe = false ->
   count (is_request_ok l) ev = count (is_free l) ev /\
   count is_irq_ok ev = count is_free_irq ev /\
   count is_kfree ev = (if kzalloc_ok pe then 1 else 0)%nat) /\
  (probe_succeeds pe = true ->
   count (is_request_ok l) ev = 1%nat /\ count (is_free l) ev = 0%nat /\
   count is_irq_ok ev = 1%nat /\ count is_free_irq ev = 0%nat /\
   count is_kfree ev = 0%nat).
Proof.
  cbn zeta. probe_open pe m.
  destruct kz; cbn [negb andb];
    [| split; [intros _; repeat split | discriminate]].
  run_action.
  probe_case e1;
    [| rewrite ?B; split; [intros _ | discriminate];
       unfold count; destruct l; cbn -[Z.eqb]; rewrite ?B; repeat split].
  probe_case e2;
    [| rewrite ?B; split; [intros _ | discriminate];
       unfold count; destruct l; cbn -[Z.eqb]; rewrite ?B; repeat split].
  probe_case e3;
    [| rewrite ?B; split; [intros _ | discriminate];
       unfold count; destruct l; cbn -[Z.eqb]; rewrite ?B; repeat split].
  probe_case e4;
    [| rewrite ?B; split; [intros _ | discriminate];
       unfold count; destruct l; cbn -[Z.eqb]; rewrite ?B; repeat split].
  probe_case e5;
    [| rewrite ?B; split; [intros _ | discriminate];
       unfold count; destruct l; cbn -[Z.eqb]; rewrite ?B; repeat split].
  probe_case e6.
  - split; [discriminate | intros _].
    unfold count; destruct l; destruct f; destruct (ri sa =? 0); cbn; repeat split.
  - rewrite ?B. split; [intros _ | discriminate].
    unfold count; destruct l; destruct f; destruct (ri sa =? 0);
      cbn -[Z.eqb]; rewrite ?B; cbn -[Z.eqb]; repeat split.
Qed.

(** X12.  A successful [wrigley_probe] drives no line: POWER, DISABLE and
    FLASH-STRAP keep the level the board gave them.  It reads RESET-SENSE
    once.  The boot mode is the level of FLASH-STRAP, the suspend flag is
    clear, the radio device is registered, and the status is Off when
    RESET-SENSE read low, and otherwise Flash or Normal by the level of
    FLASH-STRAP; it is never Resetting or Undefined. *)
Theorem probe_infers_status (ENOMEM : Z) (pe : probe_env) (board : machine) :
  ENOMEM <> 0 ->
  result (wrigley_probe ENOMEM pe board) = 0 ->
  let r := wrigley_probe ENOMEM pe board in
  count is_gpio_out (events r) = 0%nat /\
  count is_reset_read (events r) = 1%nat /\
  disable_lvl (final r) = disable_lvl board /\
  power_lvl (final r) = power_lvl board /\
  flash_lvl (final r) = flash_lvl board /\
  sampled (final r) = S (sampled board) /\
  boot_flash (info (final r)) = flash_lvl board /\
  tcmd_suspended (info (final r)) = false /\
  rdev_dev (info (final r)) = true /\
  status (info (final r)) =
    (if reset_in board (sampled board) =? 0 then WRIGLEY_STATUS_OFF
     else if flash_lvl board then WRIGLEY_STATUS_FLASH
          else WRIGLEY_STATUS_NORMAL).
Proof.
  intros HE H0. cbn zeta.
  rewrite (wrigley_probe_ok ENOMEM pe board HE H0).
  cbn [disable_lvl power_lvl flash_lvl sampled info boot_flash tcmd_suspended
       rdev_dev status].
  refine (conj _ (conj _ (conj eq_refl (conj eq_refl (conj eq_refl
            (conj eq_refl (conj eq_refl (conj eq_refl (conj eq_refl eq_refl))))))))).
  - revert H0. probe_open pe board.
    destruct kz; cbn [negb]; [| cbn; lia].
    run_action.
    probe_case e1; [| intro; contradiction].
    probe_case e2; [| intro; contradiction].
    probe_case e3; [| intro; contradiction].
    probe_case e4; [| intro; contradiction].
    probe_case e5; [| intro; contradiction].
    probe_case e6.
    + intros _. destruct f; destruct (ri sa =? 0); reflexivity.
    + destruct f; destruct (ri sa =? 0); cbn -[Z.eqb]; rewrite ?B;
        cbn -[Z.eqb]; intro; contradiction.
  - revert H0. probe_open pe board.
    destruct kz; cbn [negb]; [| cbn; lia].
    run_action.
    probe_case e1; [| intro; contradiction].
    probe_case e2; [| intro; contradiction].
    probe_case e3; [| intro; contradiction].
    probe_case e4; [| intro; contradiction].
    probe_case e5; [| intro; contradiction].
    probe_case e6.
    + intros _. destruct f; destruct (ri sa =? 0); reflexivity.
    + destruct f; destruct (ri sa =? 0); cbn -[Z.eqb]; rewrite ?B;
        cbn -[Z.eqb]; intro; contradiction.
Qed.

(** X13.  When [radio_dev_register] alone fails, [wrigley_probe] has already
    registered the reboot notifier; it returns the error, frees POWER,
    FLASH-STRAP, the interrupt, RESET-SENSE, DISABLE and the structure, in
    that order, and makes no other call after the failure. *)
Theorem probe_register_failure (ENOMEM err : Z) (board : machine) :
  err <> 0 ->
  let r := wrigley_probe ENOMEM (mk_probe_env true 0 0 0 0 0 err) board in
  result r = err /\
  events r =
    [ EvGpioRequest disable_gpio 0; EvGpioExport disable_gpio;
      EvGpioRequest reset_gpio 0; EvGpioIn reset_gpio;
      EvRequestIrq 0; EvGpioExport reset_gpio;
      EvGpioRequest flash_gpio 0; EvGpioExport flash_gpio;
      EvGpioRequest power_gpio 0; EvGpioExport power_gpio;
      EvRegisterReboot;
      EvGpioGet flash_gpio (Z.b2z (flash_lvl board));
      EvGpioGet reset_gpio (reset_in board (sampled board));
      EvRadioRegister err;
      EvGpioFree power_gpio; EvGpioFree flash_gpio; EvFreeIrq;
      EvGpioFree reset_gpio; EvGpioFree disable_gpio; EvKfree ] /\
  count is_register_reboot (events r) = 1%nat.
Proof.
  intro HE. cbn zeta.
  destruct board as [[bf su st rd] d p f ri sa].
  unfold result, events.
  destruct err as [|q|q]; [contradiction | |];
    destruct f; cbn; destruct (ri sa); cbn;
    refine (conj eq_refl (conj eq_refl eq_refl)).
Qed.

(** ** The shutdown hook *)

(** X14.  The device shutdown hook makes the calls of one power down and
    leaves the machine a power down leaves, with status Off; unlike the
    reboot notifier it sends no notification. *)
Theorem shutdown_hook_silent (m : machine) :
  events (wrigley_shutdown m) = events (wrigley_do_powerdown m) /\
  final (wrigley_shutdown m) = final (wrigley_do_powerdown m) /\
  status (info (final (wrigley_shutdown m))) = WRIGLEY_STATUS_OFF /\
  count is_uevent (events (wrigley_shutdown m)) = 0%nat /\
  count is_lock (events (wrigley_shutdown m)) = 1%nat.
Proof.
  destruct (wrigley_do_powerdown_counts m) as [Hl Hu].
  destruct (wrigley_do_powerdown_returns m) as [_ Hs].
  assert (E : wrigley_shutdown m =
              ((tt, final (wrigley_do_powerdown m)), events (wrigley_do_powerdown m))).
  { unfold wrigley_shutdown, bind, ret.
    destruct (wrigley_do_powerdown m) as [[z m'] e].
    unfold final, events; cbn [fst snd]. now rewrite app_nil_r. }
  rewrite E. unfold final at 1 2 3, events at 1 3 4; cbn [fst snd]. auto.
Qed.

(** ** Examples for the further properties *)

(** X1 at work: the modem answers at the fourth read. *)
Lemma powerup_stops_at_first_high_witness :
  sampled (final (wrigley_do_powerup ctrl_off)) =
    (count is_reset_read (events (wrigley_do_powerup ctrl_off)) + sampled ctrl_off)%nat /\
  count is_reset_read (events (wrigley_do_powerup ctrl_off)) = 4%nat /\
  slept (events (wrigley_do_powerup ctrl_off)) = 1200.
Proof.
  assert (Hn : status (info ctrl_off) <> WRIGLEY_STATUS_NORMAL) by (vm_compute; discriminate).
  assert (Hf : status (info ctrl_off) <> WRIGLEY_STATUS_FLASH) by (vm_compute; discriminate).
  split; [exact (proj1 (powerup_stops_at_first_high ctrl_off Hn Hf))|].
  split; reflexivity.
Defined.

(** X2 at work: the modem never lets RESET-SENSE go. *)
Lemma powerdown_stops_at_first_low_witness :
  sampled (final (wrigley_do_powerdown ctrl_normal)) =
    (count is_reset_read (events (wrigley_do_powerdown ctrl_normal)) +
     sampled ctrl_normal)%nat /\
  slept (events (wrigley_do_powerdown ctrl_normal)) = 4000.
Proof.
  assert (H : status (info ctrl_normal) <> WRIGLEY_STATUS_OFF) by (vm_compute; discriminate).
  split; [exact (proj1 (powerdown_stops_at_first_low ctrl_normal H)) | reflexivity].
Defined.

(** X4 at work: suspend, then a power up command. *)
Lemma suspend_is_sticky_witness :
  tcmd_suspended
    (info (final (wrigley_command 22 "powerup"
             (final (wrigley_command 22 "suspend" ctrl_normal))))) = true.
Proof.
  apply (proj1 (suspend_is_sticky 22 32 ctrl_normal _
                  (reaches_step 22 32 _ _ _ (reaches_refl 22 32 _)
                     (step_command 22 32 "powerup" _)))).
Defined.

(** X5 at work: the controller just attached to a cold board. *)
Lemma reachable_status_read_only_witness :
  final (wrigley_status_show 32 (final (wrigley_probe 12 probe_ok board_cold))) =
  final (wrigley_probe 12 probe_ok board_cold).
Proof.
  assert (HE : 12 <> 0) by lia.
  assert (Hr : reachable 22 12 32 (final (wrigley_probe 12 probe_ok board_cold))).
  { exists probe_ok, board_cold, (final (wrigley_probe 12 probe_ok board_cold)).
    split; [split; reflexivity | apply reaches_refl]. }
  exact (proj1 (proj2 (reachable_status_read_only 22 12 32 32 _ HE Hr))).
Defined.

(** X6 at work: a Normal controller shut down and powered up again. *)
Lemma powerup_after_powerdown_witness :
  result (wrigley_do_powerup (final (wrigley_do_powerdown ctrl_normal))) = 0.
Proof.
  apply (proj1 (proj2 (proj2 (proj2 (powerup_after_powerdown ctrl_normal))))).
  exists 0%nat. split; [lia | vm_compute; discriminate].
Defined.

(** X7 at work: a second power up after one that succeeded. *)
Lemma powerup_twice_witness :
  wrigley_do_powerup (final (wrigley_do_powerup ctrl_off)) =
    ((-1, final (wrigley_do_powerup ctrl_off)), [EvMutexLock; EvMutexUnlock]).
Proof.
  assert (Hn : status (info ctrl_off) <> WRIGLEY_STATUS_NORMAL) by (vm_compute; discriminate).
  assert (Hf : status (info ctrl_off) <> WRIGLEY_STATUS_FLASH) by (vm_compute; discriminate).
  apply (proj1 (proj2 (powerup_twice ctrl_off Hn Hf))). reflexivity.
Defined.


(** X9 at work: two reset edges on a Normal controller. *)
Lemma reset_irq_unsuspended_witness :
  final (reset_irq (final (reset_irq ctrl_normal))) = final (reset_irq ctrl_normal).
Proof.
  assert (H : tcmd_suspended (info ctrl_normal) = false) by reflexivity.
  exact (proj2 (reset_irq_unsuspended ctrl_normal H)).
Defined.

(** X10 at work: every request granted. *)
Lemma probe_returns_first_error_witness :
  result (wrigley_probe 12 probe_ok board_cold) = 0 /\
  result (wrigley_probe 12 probe_no_power board_cold) = -16.
Proof.
  assert (HE : 12 <> 0) by lia.
  split.
  - apply (proj2 (proj2 (probe_returns_first_error 12 probe_ok board_cold) HE)).
    reflexivity.
  - exact (proj1 (probe_returns_first_error 12 probe_no_power board_cold)).
Defined.

(** X11 at work: the POWER line is refused; FLASH-STRAP, granted before, is
    given back. *)
Lemma probe_rollback_balanced_witness :
  count (is_request_ok flash_gpio) (events (wrigley_probe 12 probe_no_power board_cold)) =
  count (is_free flash_gpio) (events (wrigley_probe 12 probe_no_power board_cold)).
Proof.
  assert (H : probe_succeeds probe_no_power = false) by reflexivity.
  exact (proj1 (proj1 (probe_rollback_balanced 12 probe_no_power board_cold flash_gpio) H)).
Defined.

(** X12 at work: the board whose rails are up. *)
Lemma probe_infers_status_witness :
  status (info (final (wrigley_probe 12 probe_ok board_rails_up))) = WRIGLEY_STATUS_OFF /\
  power_lvl (final (wrigley_probe 12 probe_ok board_rails_up)) = true.
Proof.
  assert (HE : 12 <> 0) by lia.
  assert (H0 : result (wrigley_probe 12 probe_ok board_rails_up) = 0) by reflexivity.
  destruct (probe_infers_status 12 probe_ok board_rails_up HE H0)
    as (_ & _ & _ & Hp & _ & _ & _ & _ & _ & Hs).
  split; [exact Hs | exact Hp].
Defined.

(** X13 at work: the radio class answers -19. *)
Lemma probe_register_failure_witness :
  result (wrigley_probe 12 (mk_probe_env true 0 0 0 0 0 (-19)) board_cold) = -19.
Proof.
  assert (HE : -19 <> 0) by lia.
  exact (proj1 (probe_register_failure 12 (-19) board_cold HE)).
Defined.
